(** * EEPROM Explorer: the serial protocol client of [gui.py]

    A shallow embedding of the text transforms, the serial client and the
    file operations of [gui.py], and the properties of its line protocol.

    Conventions of the embedding.
    - A Python [str] is a [string]: a sequence of code points below 256.
      Everything the device sends passes through [bytes_to_text], whose
      output stays below 127, and the library functions modelled here
      ([strip], [split], [splitlines], [int]) are given with their full
      behaviour on that range.
    - A Python [bytes] is a [list byte].
    - The serial port and the clock are the outside world: every call on
      the port and every [time.sleep] is appended to a trace of events, and
      what the polling loop of [send_line] sees of the device is read from
      a script held by the world.
    - A Python exception is a value of [exn]; code that can raise returns
      in an error monad. *)

From Stdlib Require Import String Ascii List ZArith NArith Lia Bool.
From Stdlib Require Import DecimalString DecimalPos.
From Stdlib Require Strings.Byte.
Import ListNotations.

Local Open Scope list_scope.
Local Open Scope string_scope.

(** ** Configuration constants *)

Definition PORT_DEFAULT : string := "COM9".
Definition BAUD : Z := 9600.
Definition FILE_COUNT : nat := 3.
(** Durations are in milliseconds: [READ_TIMEOUT = 0.5] seconds. *)
Definition READ_TIMEOUT : Z := 500.

(** ** Python exceptions *)

Inductive exn : Type :=
| ValueError
| IndexError
| TclError
| SerialException.

Inductive result (A : Type) : Type :=
| Ok (a : A)
| Raise (e : exn).
Arguments Ok {A} a.
Arguments Raise {A} e.

Definition rbind {A B} (r : result A) (k : A -> result B) : result B :=
  match r with
  | Ok a => k a
  | Raise e => Raise e
  end.

Declare Scope result_scope.
Delimit Scope result_scope with result.
Notation "x <- e ;; k" := (rbind e (fun x => k))
  (at level 61, e at next level, right associativity) : result_scope.

(** ** The part of Python's [str] that the client uses *)

Module Py.

Definition LF : ascii := "010"%char.
Definition CR : ascii := "013"%char.
Definition BACKSLASH : ascii := "\"%char.

(** The one-character string holding a line feed. *)
Definition nl : string := String LF EmptyString.

Definition code (c : ascii) : N := N_of_ascii c.

(** [str.isspace] on one character: the code points below 256 that Python
    treats as whitespace. *)
Definition is_space (c : ascii) : bool :=
  let n := code c in
  ((9 <=? n) && (n <=? 13) || (28 <=? n) && (n <=? 32)
   || (n =? 133) || (n =? 160))%N.

(** The line boundaries of [str.splitlines] below 256. *)
Definition is_linebreak (c : ascii) : bool :=
  let n := code c in
  ((10 <=? n) && (n <=? 13) || (28 <=? n) && (n <=? 30) || (n =? 133))%N.

Definition is_empty (s : string) : bool :=
  match s with
  | EmptyString => true
  | String _ _ => false
  end.

(** Truth value of a string: [bool(s)]. *)
Definition truthy (s : string) : bool := negb (is_empty s).

Fixpoint lstrip_by (p : ascii -> bool) (s : string) : string :=
  match s with
  | EmptyString => EmptyString
  | String c r => if p c then lstrip_by p r else s
  end.

Fixpoint rstrip_by (p : ascii -> bool) (s : string) : string :=
  match s with
  | EmptyString => EmptyString
  | String c r =>
      let r' := rstrip_by p r in
      if p c && is_empty r' then EmptyString else String c r'
  end.

(** [s.strip()] *)
Definition strip (s : string) : string := rstrip_by is_space (lstrip_by is_space s).

(** [s.rstrip(ch)] for a one-character argument. *)
Definition rstrip_char (ch : ascii) (s : string) : string :=
  rstrip_by (Ascii.eqb ch) s.

(** [s.replace(old, new)] where [old] is one character, as at every call
    site of the client. *)
Fixpoint replace (old : ascii) (new : string) (s : string) : string :=
  match s with
  | EmptyString => EmptyString
  | String c r =>
      if Ascii.eqb c old then new ++ replace old new r
      else String c (replace old new r)
  end.

Definition cons_head (c : ascii) (parts : list string) : list string :=
  match parts with
  | [] => [String c EmptyString]
  | h :: t => String c h :: t
  end.

(** [s.split(sep)] for a one-character separator. *)
Fixpoint split_on (sep : ascii) (s : string) : list string :=
  match s with
  | EmptyString => [EmptyString]
  | String c r =>
      if Ascii.eqb c sep then EmptyString :: split_on sep r
      else cons_head c (split_on sep r)
  end.

(** [s.split(sep, maxsplit)] for a one-character separator. *)
Fixpoint split_max (sep : ascii) (s : string) (maxsplit : nat) : list string :=
  match s with
  | EmptyString => [EmptyString]
  | String c r =>
      match maxsplit with
      | O => [s]
      | S m =>
          if Ascii.eqb c sep then EmptyString :: split_max sep r m
          else cons_head c (split_max sep r maxsplit)
      end
  end.

(** [s.split()]: the maximal runs of characters that are not whitespace. *)
Fixpoint split_ws (s : string) : list string :=
  match s with
  | EmptyString => []
  | String c r =>
      if is_space c then split_ws r
      else
        match r with
        | EmptyString => [String c EmptyString]
        | String c' _ =>
            if is_space c' then String c EmptyString :: split_ws r
            else cons_head c (split_ws r)
        end
  end.

(** [s.splitlines()]: a carriage return followed by a line feed is one
    boundary, and no empty line is produced after the last boundary. *)
Fixpoint splitlines (s : string) : list string :=
  match s with
  | EmptyString => []
  | String c r =>
      if Ascii.eqb c CR then
        match r with
        | EmptyString => [EmptyString]
        | String c' r' =>
            if Ascii.eqb c' LF then EmptyString :: splitlines r'
            else EmptyString :: splitlines r
        end
      else if is_linebreak c then EmptyString :: splitlines r
      else cons_head c (splitlines r)
  end.

(** [s.startswith(p)] *)
Fixpoint startswith (s p : string) {struct p} : bool :=
  match p with
  | EmptyString => true
  | String a p' =>
      match s with
      | EmptyString => false
      | String b s' => Ascii.eqb a b && startswith s' p'
      end
  end.

(** [s[:n]] *)
Fixpoint take (n : nat) (s : string) : string :=
  match n with
  | O => EmptyString
  | S m =>
      match s with
      | EmptyString => EmptyString
      | String c r => String c (take m r)
      end
  end.

(** [l[n]] on a list, raising [IndexError] out of range. *)
Definition getitem {A} (l : list A) (n : nat) : result A :=
  match nth_error l n with
  | Some x => Ok x
  | None => Raise IndexError
  end.

(** [str(z)], also what an f-string prints for an integer. The integers
    that the client prints are loop indices and values read by [int], so
    the limit of the interpreter on the digits printed is never met. *)
Definition str_of_int (z : Z) : string := NilZero.string_of_int (Z.to_int z).

Definition digit_of (c : ascii) : option Z :=
  let n := code c in
  if ((48 <=? n) && (n <=? 57))%N then Some (Z.of_N (n - 48)) else None.

(** The digits of a decimal literal: single underscores are allowed between
    digits. [prev] tells whether the previous character was a digit. *)
Fixpoint int_digits (acc : Z) (prev : bool) (s : string) : option Z :=
  match s with
  | EmptyString => if prev then Some acc else None
  | String c r =>
      match digit_of c with
      | Some d => int_digits (10 * acc + d) true r
      | None =>
          if Ascii.eqb c "_" && prev then int_digits acc false r else None
      end
  end.

Definition raise_none {A} (e : exn) (o : option A) : result A :=
  match o with
  | Some a => Ok a
  | None => Raise e
  end.

(** The whitespace that [int] ignores around a literal: that of
    [str.isspace] below 256 without the separators 28 to 31. *)
Definition is_int_space (c : ascii) : bool :=
  let n := code c in
  ((9 <=? n) && (n <=? 13) || (n =? 32) || (n =? 133) || (n =? 160))%N.

(** The limit of the interpreter on the digits of a literal given to
    [int]: its default, which the client does not change. *)
Definition INT_MAX_STR_DIGITS : N := 4300.

(** The number of digits of a literal, leading zeros included, underscores
    not. *)
Fixpoint count_digits (s : string) : N :=
  match s with
  | EmptyString => 0
  | String c r =>
      match digit_of c with
      | Some _ => N.succ (count_digits r)
      | None => count_digits r
      end
  end.

(** The value of the digits of a literal, or [ValueError] when they are
    malformed or more than the limit allows. *)
Definition int_literal (s : string) : result Z :=
  if (count_digits s <=? INT_MAX_STR_DIGITS)%N
  then raise_none ValueError (int_digits 0 false s)
  else Raise ValueError.

(** [int(s)] in base 10: surrounding whitespace is ignored, one sign is
    allowed; anything else raises [ValueError]. *)
Definition int (s : string) : result Z :=
  let t := rstrip_by is_int_space (lstrip_by is_int_space s) in
  match t with
  | EmptyString => Raise ValueError
  | String c r =>
      if Ascii.eqb c "+" then int_literal r
      else if Ascii.eqb c "-" then rbind (int_literal r) (fun v => Ok (- v)%Z)
      else int_literal t
  end.

(** [chr(x)] for a byte value. *)
Definition chr (x : Byte.byte) : ascii := ascii_of_byte x.

Definition byte_of_N (n : N) : Byte.byte := byte_of_ascii (ascii_of_N n).

(** UTF-8 of one code point below 256. *)
Definition utf8_char (c : ascii) : list Byte.byte :=
  let n := code c in
  if (n <? 128)%N then [byte_of_ascii c]
  else [byte_of_N (192 + n / 64); byte_of_N (128 + n mod 64)].

(** [s.encode('utf-8', errors='ignore')]: below 256 every code point can be
    encoded, so nothing is dropped. *)
Fixpoint encode_utf8 (s : string) : list Byte.byte :=
  match s with
  | EmptyString => []
  | String c r => utf8_char c ++ encode_utf8 r
  end.

End Py.

(** ** Utilities *)

Definition escape_for_arduino (s : string) : string :=
  Py.replace Py.CR "\r"
    (Py.replace Py.LF "\n"
       (Py.replace Py.BACKSLASH "\\" s)).

(** The character appended for the escape pair backslash, [nxt]. *)
Definition unescape_pair (nxt : ascii) : ascii :=
  if Ascii.eqb nxt "n" then Py.LF
  else if Ascii.eqb nxt "r" then Py.CR
  else if Ascii.eqb nxt Py.BACKSLASH then Py.BACKSLASH
  else nxt.

(** The loop of [unescape_from_arduino], with its index [i] and its list
    [out]. Every iteration moves the index forward, so [fuel] bounds the
    number of iterations; [None] means that the fuel ran out, or that an
    index was out of range. *)
Fixpoint unescape_loop (fuel : nat) (s : string) (i : nat) (out : list ascii)
  : option (list ascii) :=
  if Nat.ltb i (String.length s) then
    match fuel with
    | O => None
    | S fuel' =>
        match String.get i s with
        | None => None
        | Some c =>
            if Ascii.eqb c Py.BACKSLASH && Nat.ltb (i + 1) (String.length s) then
              match String.get (i + 1) s with
              | None => None
              | Some nxt => unescape_loop fuel' s (i + 2) (out ++ [unescape_pair nxt])
              end
            else unescape_loop fuel' s (i + 1) (out ++ [c])
        end
    end
  else Some out.

(** [''.join(out)] after the loop. One unit of fuel for each character is
    enough and no index is out of range (lemma [unescape_loop_total]), so
    the last case never occurs. *)
Definition unescape_from_arduino (s : string) : string :=
  match unescape_loop (String.length s) s 0 [] with
  | Some out => string_of_list_ascii out
  | None => EmptyString
  end.

(** The same scan by recursion on the part of the text not yet read: a
    backslash with a character after it consumes both. *)
Fixpoint unescape_scan (s : string) : string :=
  match s with
  | EmptyString => EmptyString
  | String c r =>
      if Ascii.eqb c Py.BACKSLASH then
        match r with
        | String nxt r' => String (unescape_pair nxt) (unescape_scan r')
        | EmptyString => String c EmptyString
        end
      else String c (unescape_scan r)
  end.

(** The test of the generator in [bytes_to_text]. *)
Definition keeps (x : Byte.byte) : bool :=
  let n := Byte.to_N x in
  ((32 <=? n) && (n <=? 126) || (n =? 10))%N.

Fixpoint bytes_to_text (b : list Byte.byte) : string :=
  match b with
  | [] => EmptyString
  | x :: r =>
      (if keeps x then String (Py.chr x) EmptyString else EmptyString)
        ++ bytes_to_text r
  end.

(** ** The outside world: the serial port and the clock *)

Inductive event : Type :=
| EvOpen (port : string) (baud : Z) (timeout : Z)  (* serial.Serial(...) *)
| EvClose                                          (* ser.close() *)
| EvSleep (ms : Z)                                 (* time.sleep(...) *)
| EvResetInput                                     (* ser.reset_input_buffer() *)
| EvWrite (data : list Byte.byte)                  (* ser.write(data) *)
| EvRead (data : list Byte.byte).                  (* ser.read(avail) *)

(** [trace] lists the events so far, oldest first. [incoming] is the script
    of the device: for each exchange still to come, what the successive
    polls of [in_waiting] find during the read window (an empty chunk is a
    poll that finds nothing). [can_open] tells which ports open. *)
Record World : Type := mkWorld {
  trace : list event;
  incoming : list (list (list Byte.byte));
  can_open : string -> bool
}.

(** A [serial.Serial] object. *)
Record Serial : Type := mkSerial {
  ser_port : string;
  ser_baud : Z;
  ser_timeout : Z;
  ser_is_open : bool
}.

Record SerialClient : Type := mkClient {
  port : string;
  baud : Z;
  timeout : Z;
  ser : option Serial
}.

(** A row of the tree view: its item id and the two columns. *)
Record Row : Type := mkRow {
  iid : string;
  name_col : string;
  size_col : string
}.

Record Gui : Type := mkGui {
  tree : list Row;
  selection : option string;     (* at most one item: selectmode='browse' *)
  editor : string;               (* the text of the editor *)
  status_lbl : string;
  footer_lbl : string;
  filename_label : string;
  btn_connect : string;
  port_var : string
}.

Record App : Type := mkApp {
  client : SerialClient;
  gui : Gui;
  world : World
}.

Definition with_client (c : SerialClient) (st : App) : App :=
  mkApp c (gui st) (world st).
Definition with_gui (g : Gui) (st : App) : App :=
  mkApp (client st) g (world st).
Definition with_world (w : World) (st : App) : App :=
  mkApp (client st) (gui st) w.

Definition set_ser (o : option Serial) (c : SerialClient) : SerialClient :=
  mkClient (port c) (baud c) (timeout c) o.
Definition set_port (p : string) (c : SerialClient) : SerialClient :=
  mkClient p (baud c) (timeout c) (ser c).

Definition set_tree (t : list Row) (sel : option string) (g : Gui) : Gui :=
  mkGui t sel (editor g) (status_lbl g) (footer_lbl g) (filename_label g)
        (btn_connect g) (port_var g).
Definition set_editor (e : string) (g : Gui) : Gui :=
  mkGui (tree g) (selection g) e (status_lbl g) (footer_lbl g)
        (filename_label g) (btn_connect g) (port_var g).
Definition set_status_labels (txt : string) (g : Gui) : Gui :=
  mkGui (tree g) (selection g) (editor g) txt txt (filename_label g)
        (btn_connect g) (port_var g).
Definition set_filename_label (txt : string) (g : Gui) : Gui :=
  mkGui (tree g) (selection g) (editor g) (status_lbl g) (footer_lbl g) txt
        (btn_connect g) (port_var g).
Definition set_btn_connect (txt : string) (g : Gui) : Gui :=
  mkGui (tree g) (selection g) (editor g) (status_lbl g) (footer_lbl g)
        (filename_label g) txt (port_var g).

(** ** The monad of the application: state and exceptions *)

Inductive outcome (A : Type) : Type :=
| Done (a : A) (st : App)
| Fail (e : exn) (st : App).
Arguments Done {A} a st.
Arguments Fail {A} e st.

Definition M (A : Type) : Type := App -> outcome A.

Definition ret {A} (a : A) : M A := fun st => Done a st.

Definition bind {A B} (m : M A) (k : A -> M B) : M B :=
  fun st =>
    match m st with
    | Done a st' => k a st'
    | Fail e st' => Fail e st'
    end.

Definition raise {A} (e : exn) : M A := fun st => Fail e st.

(** [try: m except: h] *)
Definition try_except {A} (m : M A) (h : M A) : M A :=
  fun st =>
    match m st with
    | Done a st' => Done a st'
    | Fail _ st' => h st'
    end.

Definition lift_result {A} (r : result A) : M A :=
  match r with
  | Ok a => ret a
  | Raise e => raise e
  end.

Definition get : M App := fun st => Done st st.
Definition modify (f : App -> App) : M unit := fun st => Done tt (f st).

Declare Scope app_scope.
Delimit Scope app_scope with app.
Notation "x <- m ;; k" := (bind m (fun x => k))
  (at level 61, m at next level, right associativity) : app_scope.
Notation "m ;; k" := (bind m (fun _ => k))
  (at level 61, right associativity) : app_scope.

Local Open Scope app_scope.

Definition log (e : event) : M unit :=
  modify (fun st =>
    with_world (mkWorld (trace (world st) ++ [e]) (incoming (world st))
                        (can_open (world st))) st).

(** [time.sleep], in milliseconds. *)
Definition sleep (ms : Z) : M unit := log (EvSleep ms).

(** ** SerialClient *)

Definition new_client (p : string) : SerialClient :=
  mkClient p BAUD 100 None.

Definition is_open (c : SerialClient) : bool :=
  match ser c with
  | Some s => ser_is_open s
  | None => false
  end.

Definition close : M unit :=
  st <- get ;;
  (match ser (client st) with
   | Some s => if ser_is_open s then log EvClose else ret tt
   | None => ret tt
   end) ;;
  modify (fun st => with_client (set_ser None (client st)) st).

(** [serial.Serial(port, baud, timeout=timeout)]: opens the port or raises. *)
Definition Serial_new (p : string) (b t : Z) : M Serial :=
  st <- get ;;
  if can_open (world st) p then
    log (EvOpen p b t) ;; ret (mkSerial p b t true)
  else raise SerialException.

Definition connect : M unit :=
  st <- get ;;
  (match ser (client st) with
   | Some _ => close
   | None => ret tt
   end) ;;
  st <- get ;;
  s <- Serial_new (port (client st)) (baud (client st)) (timeout (client st)) ;;
  modify (fun st => with_client (set_ser (Some s) (client st)) st) ;;
  sleep 150 ;;
  log EvResetInput.

(** The polling loop of [send_line]. The clock decides how many polls fit
    in the window of [READ_TIMEOUT], and the device what each of them
    finds, so both come from the script: a poll that finds bytes reads
    them, one that finds none sleeps 10 ms. *)
Fixpoint poll (chunks : list (list Byte.byte)) (buf : list Byte.byte)
  : M (list Byte.byte) :=
  match chunks with
  | [] => ret buf
  | avail :: rest =>
      match avail with
      | [] => sleep 10 ;; poll rest buf
      | _ :: _ => log (EvRead avail) ;; poll rest (buf ++ avail)
      end
  end.

(** The polls of the next read window, taken off the script. *)
Definition next_window : M (list (list Byte.byte)) :=
  fun st =>
    match incoming (world st) with
    | [] => Done [] st
    | w :: rest =>
        Done w (with_world (mkWorld (trace (world st)) rest
                                    (can_open (world st))) st)
    end.

Definition send_line (line : string) : M (list Byte.byte) :=
  st <- get ;;
  if negb (is_open (client st)) then ret []
  else
    log EvResetInput ;;
    log (EvWrite (Py.encode_utf8 (line ++ Py.nl))) ;;
    chunks <- next_window ;;
    poll chunks [].

(** ** The file operations of the window *)

Definition _set_status (txt : string) : M unit :=
  modify (fun st => with_gui (set_status_labels txt (gui st)) st).

(** The prefix [f"{i+1}:"] looked for in the listing for slot [i]. *)
Definition slot_prefix (i : nat) : string :=
  Py.str_of_int (Z.of_nat i + 1) ++ ":".

(** [[ln.strip() for ln in txt.splitlines() if ln.strip()]] *)
Definition listing_lines (txt : string) : list string :=
  map Py.strip (filter (fun ln => Py.truthy (Py.strip ln)) (Py.splitlines txt)).

(** The body of the [try] in [refresh_files]: the name and the size read
    off one line, or the exception raised on the way. *)
Definition parse_line (ln : string) : result (string * Z) :=
  (after <- Py.getitem (Py.split_max ":" ln 1) 1 ;;
   before <- Py.getitem (Py.split_on "(" after) 0 ;;
   let name := Py.strip before in
   inside <- Py.getitem (Py.split_on "(" ln) 1 ;;
   word <- Py.getitem (Py.split_ws inside) 0 ;;
   s <- Py.int word ;;
   Ok (name, s))%result.

(** The inner loop [for ln in lines]: the first line that starts with the
    prefix decides, and the loop stops there whether or not it parsed. *)
Fixpoint scan_lines (pfx : string) (lines : list string)
                    (label : string) (size : Z) : string * Z :=
  match lines with
  | [] => (label, size)
  | ln :: rest =>
      if Py.startswith ln pfx then
        match parse_line ln with
        | Ok (name, s) => (name, s)
        | Raise _ => (label, size)
        end
      else scan_lines pfx rest label size
  end.

(** The label and the size found for slot [i] (0-based, as the loop
    variable of the source). *)
Definition slot_entry (lines : list string) (i : nat) : string * Z :=
  scan_lines (slot_prefix i) lines "(empty)" 0.

(** The row inserted for slot [i]. *)
Definition slot_row (lines : list string) (i : nat) : Row :=
  let '(label, size) := slot_entry lines i in
  mkRow (Py.str_of_int (Z.of_nat i + 1)) label (Py.str_of_int size ++ " B").

(** The rows of the tree after [refresh_files] has read [raw]. *)
Definition listing_rows (raw : list Byte.byte) : list Row :=
  let txt := bytes_to_text raw in
  let lines := listing_lines txt in
  map (slot_row lines) (seq 0 FILE_COUNT).

(** The listing as index, name and size. *)
Definition listing_entries (raw : list Byte.byte) : list (Z * string * Z) :=
  let lines := listing_lines (bytes_to_text raw) in
  map (fun i => let '(label, size) := slot_entry lines i in
                (Z.of_nat i + 1, label, size)%Z)
      (seq 0 FILE_COUNT).

(** Deleting every item of the tree also empties the selection. *)
Definition refresh_files : M unit :=
  st <- get ;;
  if negb (is_open (client st)) then ret tt
  else
    raw <- send_line "LIST" ;;
    modify (fun st => with_gui (set_tree (listing_rows raw) None (gui st)) st).

Definition _get_selected_index : M (option Z) :=
  st <- get ;;
  match selection (gui st) with
  | None => ret None
  | Some item => idx <- lift_result (Py.int item) ;; ret (Some idx)
  end.

(** [self.tree.set(item, 'name')]: the name column of an item of the tree. *)
Definition tree_set_name (item : string) : M string :=
  st <- get ;;
  match find (fun r => String.eqb (iid r) item) (tree (gui st)) with
  | Some r => ret (name_col r)
  | None => raise TclError
  end.

Definition read_selected : M unit :=
  oidx <- _get_selected_index ;;
  st <- get ;;
  match oidx with
  | None => ret tt
  | Some idx =>
      if negb (is_open (client st)) then ret tt
      else
        raw <- send_line ("READ " ++ Py.str_of_int idx) ;;
        let text := unescape_from_arduino (bytes_to_text raw) in
        modify (fun st => with_gui (set_editor text (gui st)) st) ;;
        try_except
          (name <- tree_set_name (Py.str_of_int idx) ;;
           modify (fun st =>
             with_gui (set_filename_label
                         (Py.str_of_int idx ++ ": " ++ name) (gui st)) st))
          (modify (fun st =>
             with_gui (set_filename_label (Py.str_of_int idx) (gui st)) st))
  end.

(** [self.editor.get('1.0','end')]: the text widget ends its content with a
    line feed of its own. *)
Definition editor_get_all (g : Gui) : string :=
  editor g ++ Py.nl.

(** The line that [write_selected] sends for slot [idx] and editor text
    [got] (what [editor.get] returned). *)
Definition write_command (idx : Z) (got : string) : string :=
  let text := Py.rstrip_char Py.LF got in
  let escaped := escape_for_arduino text in
  "WRITE " ++ Py.str_of_int idx ++ " " ++ escaped.

Definition write_selected : M unit :=
  oidx <- _get_selected_index ;;
  st <- get ;;
  match oidx with
  | None => ret tt
  | Some idx =>
      if negb (is_open (client st)) then ret tt
      else
        send_line (write_command idx (editor_get_all (gui st))) ;;
        sleep 20 ;;
        _set_status ("Wrote file " ++ Py.str_of_int idx) ;;
        refresh_files
  end.

(** [answer] is what the dialog [askstring] returns: [None] when it is
    cancelled. *)
Definition rename_selected (answer : option string) : M unit :=
  oidx <- _get_selected_index ;;
  st <- get ;;
  match oidx with
  | None => ret tt
  | Some idx =>
      if negb (is_open (client st)) then ret tt
      else
        match answer with
        | None => ret tt
        | Some newname =>
            if negb (Py.truthy newname) then ret tt
            else
              send_line ("WRITE_NAME " ++ Py.str_of_int idx ++ " "
                           ++ Py.take 9 newname) ;;
              sleep 20 ;;
              _set_status ("Renamed file " ++ Py.str_of_int idx) ;;
              refresh_files
        end
  end.

(** [yes] is the answer to the dialog [askyesno]. *)
Definition delete_selected (yes : bool) : M unit :=
  oidx <- _get_selected_index ;;
  st <- get ;;
  match oidx with
  | None => ret tt
  | Some idx =>
      if negb (is_open (client st)) then ret tt
      else if negb yes then ret tt
      else
        send_line ("DELETE " ++ Py.str_of_int idx) ;;
        modify (fun st => with_gui (set_editor EmptyString (gui st)) st) ;;
        _set_status ("Deleted file " ++ Py.str_of_int idx) ;;
        refresh_files
  end.

Definition toggle_connect : M unit :=
  st <- get ;;
  if is_open (client st) then
    close ;;
    modify (fun st => with_gui (set_btn_connect "Connect" (gui st)) st) ;;
    _set_status "Disconnected"
  else
    let p := Py.strip (port_var (gui st)) in
    if negb (Py.truthy p) then ret tt
    else
      modify (fun st => with_client (set_port p (client st)) st) ;;
      try_except
        (connect ;;
         _set_status ("Connected " ++ p) ;;
         modify (fun st => with_gui (set_btn_connect "Disconnect" (gui st)) st) ;;
         refresh_files)
        (_set_status "Not connected").

(** The window as [_build_ui] leaves it. *)
Definition initial_gui : Gui :=
  mkGui [] None EmptyString "Not connected" "Ready" "No file selected"
        "Connect" PORT_DEFAULT.

(** [ModernEEPROM.__init__] in a world [w]. *)
Definition app_init (w : World) : outcome unit :=
  try_except
    (connect ;;
     st <- get ;;
     _set_status ("Connected " ++ port (client st)) ;;
     refresh_files)
    (_set_status "Not connected")
    (mkApp (new_client PORT_DEFAULT) initial_gui w).

(** The state an outcome ends in, and the events an operation added. *)
Definition final_state {A} (o : outcome A) : App :=
  match o with
  | Done _ st => st
  | Fail _ st => st
  end.

Definition returns_normally {A} (o : outcome A) : bool :=
  match o with
  | Done _ _ => true
  | Fail _ _ => false
  end.

(** The data of the [EvWrite] events of a trace, oldest first. *)
Fixpoint written (tr : list event) : list (list Byte.byte) :=
  match tr with
  | [] => []
  | EvWrite d :: r => d :: written r
  | _ :: r => written r
  end.

(** The line put on the wire for [line]: [(line + '\n').encode(...)]. *)
Definition wire (line : string) : list Byte.byte :=
  Py.encode_utf8 (line ++ Py.nl).

(** What [escape_for_arduino] puts on the wire for one character. *)
Definition escape_char (c : ascii) : string :=
  if Ascii.eqb c Py.BACKSLASH then "\\"
  else if Ascii.eqb c Py.LF then "\n"
  else if Ascii.eqb c Py.CR then "\r"
  else String c "".

(** ** What one exchange adds to the world *)

(** The events of the polling loop over the polls of one read window. *)
Fixpoint poll_events (chunks : list (list Byte.byte)) : list event :=
  match chunks with
  | [] => []
  | [] :: rest => EvSleep 10 :: poll_events rest
  | (x :: avail) :: rest => EvRead (x :: avail) :: poll_events rest
  end.

Definition add_events (evs : list event) (st : App) : App :=
  with_world (mkWorld (trace (world st) ++ evs) (incoming (world st))
                      (can_open (world st))) st.

(** The polls of the next read window of a state. *)
Definition window (st : App) : list (list Byte.byte) :=
  hd [] (incoming (world st)).

(** The bytes [send_line] returns in a state with an open connection. *)
Definition reply (st : App) : list Byte.byte := concat (window st).

(** The state [send_line line] leaves when the connection is open. *)
Definition after_exchange (line : string) (st : App) : App :=
  with_world
    (mkWorld (trace (world st)
                ++ [EvResetInput; EvWrite (wire line)] ++ poll_events (window st))
             (tl (incoming (world st)))
             (can_open (world st))) st.

(** The state [refresh_files] leaves when the connection is open. *)
Definition after_refresh (st : App) : App :=
  let st' := after_exchange "LIST" st in
  with_gui (set_tree (listing_rows (reply st)) None (gui st')) st'.

(** ** The items of the tree *)

(** The item ids that [refresh_files] gives to the rows. *)
Definition slot_iids : list string :=
  map (fun i => Py.str_of_int (Z.of_nat i + 1)) (seq 0 FILE_COUNT).

(** Every row of the tree is a row of a listing, and the selected item, if
    any, is a row of the tree. *)
Definition gui_ok (g : Gui) : bool :=
  forallb (fun r => existsb (String.eqb (iid r)) slot_iids) (tree g)
  && match selection g with
     | None => true
     | Some item => existsb (fun r => String.eqb (iid r) item) (tree g)
     end.

(** A device that answers with a listing. *)
Definition sample_listing : list Byte.byte :=
  list_byte_of_string
    ("1: notes (12 bytes)" ++ Py.nl ++ "2: (empty)" ++ Py.nl ++ "3: todo (5 bytes)").

Definition fresh_app (w : World) : App :=
  mkApp (new_client PORT_DEFAULT) initial_gui w.

Definition open_world : World :=
  mkWorld [] [[sample_listing]; [[]; sample_listing]] (fun _ => true).

(** ** Vocabulary for the statements on the listing *)

(** Every character of [s] satisfies [p]. *)
Fixpoint all_chars (p : ascii -> bool) (s : string) : bool :=
  match s with
  | EmptyString => true
  | String c r => p c && all_chars p r
  end.

Definition is_not (x : ascii) (c : ascii) : bool := negb (Ascii.eqb c x).

(** [ln] is a line that the scan for slot [i] stops at. *)
Definition starts_slot (i : nat) (ln : string) : bool :=
  Py.startswith ln (slot_prefix i).

(** A response of the device as bytes. *)
Definition bytes_of (s : string) : list Byte.byte := list_byte_of_string s.

(** ** What the user can do with the window *)

Inductive action : Type :=
| Refresh                               (* the Refresh button *)
| ReadSel                               (* the Read button, or a double click *)
| WriteSel                              (* the Write button *)
| RenameSel (answer : option string)    (* the Rename button and its dialog *)
| DeleteSel (yes : bool)                (* the Delete button and its dialog *)
| ToggleConnect                         (* the Connect button *)
| Select (item : string)                (* a click on a row of the tree *)
| Edit (text : string)                  (* typing in the editor *)
| SetPort (text : string).              (* typing in the port entry *)

(** Only an item of the tree can be selected. *)
Definition select (item : string) : M unit :=
  modify (fun st =>
    if existsb (fun r => String.eqb (iid r) item) (tree (gui st))
    then with_gui (set_tree (tree (gui st)) (Some item) (gui st)) st
    else st).

Definition set_port_var (txt : string) (g : Gui) : Gui :=
  mkGui (tree g) (selection g) (editor g) (status_lbl g) (footer_lbl g)
        (filename_label g) (btn_connect g) txt.

Definition perform (a : action) : M unit :=
  match a with
  | Refresh => refresh_files
  | ReadSel => read_selected
  | WriteSel => write_selected
  | RenameSel answer => rename_selected answer
  | DeleteSel yes => delete_selected yes
  | ToggleConnect => toggle_connect
  | Select item => select item
  | Edit text => modify (fun st => with_gui (set_editor text (gui st)) st)
  | SetPort text => modify (fun st => with_gui (set_port_var text (gui st)) st)
  end.

(** The window after a sequence of actions. An exception that leaves a
    callback is reported by the toolkit and the window goes on from the
    state the callback had reached. *)
Fixpoint run (acts : list action) (st : App) : App :=
  match acts with
  | [] => st
  | a :: rest => run rest (final_state (perform a st))
  end.

(** A window with an open connection and a listing; slot 2 is selected and
    the editor holds a text that ends in two line feeds. *)
Definition connected_app : App :=
  run [Select "2"; Edit ("a\b" ++ Py.nl ++ Py.nl)]
      (final_state (app_init open_world)).

(** The same window after the user has disconnected. *)
Definition disconnected_app : App := run [ToggleConnect] connected_app.

(** ** Vocabulary for the properties of the transforms and of the wire *)

(** The characters of [s] that satisfy [p], in order. *)
Fixpoint filter_chars (p : ascii -> bool) (s : string) : string :=
  match s with
  | EmptyString => EmptyString
  | String c r => if p c then String c (filter_chars p r) else filter_chars p r
  end.

(** The characters that [escape_for_arduino] writes as two. *)
Definition is_escaped (c : ascii) : bool :=
  Ascii.eqb c Py.BACKSLASH || Ascii.eqb c Py.LF || Ascii.eqb c Py.CR.

(** The characters that come back from a device that echoes what it was
    sent: the printable ones, and line feed and carriage return, which
    travel escaped. *)
Definition survives (c : ascii) : bool :=
  let n := Py.code c in
  ((32 <=? n) && (n <=? 126) || (n =? 10) || (n =? 13))%N.

(** The bytes of the [EvRead] events of a trace, in order. *)
Fixpoint bytes_read (tr : list event) : list Byte.byte :=
  match tr with
  | [] => []
  | EvRead d :: r => d ++ bytes_read r
  | _ :: r => bytes_read r
  end.

(** The commands of the protocol, as the f-strings of the file operations
    build them. *)
Inductive command : Type :=
| CList
| CRead (idx : Z)
| CWrite (idx : Z) (text : string)
| CWriteName (idx : Z) (name : string)
| CDelete (idx : Z).

Definition command_line (c : command) : string :=
  match c with
  | CList => "LIST"
  | CRead idx => "READ " ++ Py.str_of_int idx
  | CWrite idx text =>
      "WRITE " ++ Py.str_of_int idx ++ " " ++ escape_for_arduino text
  | CWriteName idx name => "WRITE_NAME " ++ Py.str_of_int idx ++ " " ++ name
  | CDelete idx => "DELETE " ++ Py.str_of_int idx
  end.

(** The index of a slot of the device. *)
Definition slot_index (idx : Z) : Prop := (1 <= idx <= Z.of_nat FILE_COUNT)%Z.

(** A command as the window sends it: on a slot of the device, a text
    written without trailing line feed, a name of one to nine
    characters. *)
Definition sendable (c : command) : Prop :=
  match c with
  | CList => True
  | CRead idx => slot_index idx
  | CWrite idx text => slot_index idx /\ forall u, text <> u ++ Py.nl
  | CWriteName idx name =>
      slot_index idx /\ name <> "" /\ String.length name <= 9
  | CDelete idx => slot_index idx
  end.

(** The events that the client can add to the trace: exchanges of sendable
    commands, sleeps, and the opening, closing and clearing of the port. *)
Inductive segment : list event -> Prop :=
| seg_nil : segment []
| seg_app (a b : list event) : segment a -> segment b -> segment (a ++ b)
| seg_exchange (c : command) (polls : list (list Byte.byte)) :
    sendable c ->
    segment ([EvResetInput; EvWrite (wire (command_line c))] ++ poll_events polls)
| seg_sleep (ms : Z) : segment [EvSleep ms]
| seg_close : segment [EvClose]
| seg_open (p : string) (b t : Z) : segment [EvOpen p b t]
| seg_reset : segment [EvResetInput].

(** Every write of the trace comes right after a clearing of the input;
    [prev] tells whether the event before the trace was such a clearing. *)
Fixpoint writes_after_reset (prev : bool) (tr : list event) : bool :=
  match tr with
  | [] => true
  | EvWrite _ :: r => prev && writes_after_reset false r
  | EvResetInput :: r => writes_after_reset true r
  | _ :: r => writes_after_reset false r
  end.

(** Bytes that make exactly one line: a line feed at the end and nowhere
    else. *)
Definition one_line (data : list Byte.byte) : Prop :=
  exists body : list Byte.byte,
    data = (body ++ [Byte.x0a])%list /\ ~ In Byte.x0a body.

(** The state [connect] leaves when the port opens. *)
Definition after_connect (st : App) : App :=
  let c := client st in
  mkApp (set_ser (Some (mkSerial (port c) (baud c) (timeout c) true)) c)
        (gui st)
        (mkWorld (trace (world st)
                    ++ (if is_open c then [EvClose] else [])
                    ++ [EvOpen (port c) (baud c) (timeout c);
                        EvSleep 150; EvResetInput])
                 (incoming (world st)) (can_open (world st))).

(** The state [connect] leaves when the port does not open. *)
Definition after_failed_connect (st : App) : App :=
  mkApp (set_ser None (client st)) (gui st)
        (mkWorld (trace (world st)
                    ++ (if is_open (client st) then [EvClose] else []))
                 (incoming (world st)) (can_open (world st))).

(** The action that connects or disconnects. *)
Definition is_toggle (a : action) : bool :=
  match a with
  | ToggleConnect => true
  | _ => false
  end.

(** * Properties *)

(** ** Strings *)

Section StringFacts.

Lemma append_nil_r (s : string) : s ++ "" = s.
Proof. induction s as [|c s IH]; simpl; [reflexivity | now rewrite IH]. Qed.

Lemma append_assoc (a b c : string) : (a ++ b) ++ c = a ++ (b ++ c).
Proof. induction a as [|x a IH]; simpl; [reflexivity | now rewrite IH]. Qed.

Lemma length_app (a b : string) :
  String.length (a ++ b) = String.length a + String.length b.
Proof. induction a as [|x a IH]; simpl; [reflexivity | now rewrite IH]. Qed.

Lemma get_app_at (pre : string) (c : ascii) (r : string) :
  String.get (String.length pre) (pre ++ String c r) = Some c.
Proof. induction pre as [|x pre IH]; simpl; [reflexivity | exact IH]. Qed.

(** Induction two characters at a time, as the scan of the escapes goes. *)
Lemma string_pair_ind (P : string -> Prop) :
  P "" ->
  (forall c, P (String c "")) ->
  (forall c c' s, P s -> P (String c' s) -> P (String c (String c' s))) ->
  forall s, P s.
Proof.
  intros H0 H1 H2 s.
  assert (both : P s /\ forall c, P (String c s)).
  { induction s as [|c' s [IHs IHc]].
    - split; [exact H0 | exact H1].
    - split; [apply IHc | intro c; apply H2; [exact IHs | apply IHc]]. }
  exact (proj1 both).
Qed.

Lemma replace_app (old : ascii) (new a b : string) :
  Py.replace old new (a ++ b) = Py.replace old new a ++ Py.replace old new b.
Proof.
  induction a as [|c a IH]; simpl; [reflexivity|].
  destruct (Ascii.eqb c old); rewrite IH; simpl;
    [now rewrite append_assoc | reflexivity].
Qed.

End StringFacts.

(** ** Escaping and unescaping *)

Section EscapeFacts.

(** The three passes of [replace] amount to one pass, character by
    character: no pass touches what an earlier one has written. *)
Lemma escape_cons (c : ascii) (s : string) :
  escape_for_arduino (String c s) = escape_char c ++ escape_for_arduino s.
Proof.
  unfold escape_for_arduino, escape_char.
  destruct (Ascii.eqb_spec c Py.BACKSLASH) as [->|Hb]; [reflexivity|].
  destruct (Ascii.eqb_spec c Py.LF) as [->|Hn]; [reflexivity|].
  destruct (Ascii.eqb_spec c Py.CR) as [->|Hr]; [reflexivity|].
  apply Ascii.eqb_neq in Hb, Hn, Hr.
  cbn [Py.replace]. rewrite Hb. cbn [Py.replace]. rewrite Hn.
  cbn [Py.replace]. rewrite Hr. reflexivity.
Qed.

Lemma scan_escape_char (c : ascii) (s : string) :
  unescape_scan (escape_char c ++ s) = String c (unescape_scan s).
Proof.
  unfold escape_char.
  destruct (Ascii.eqb_spec c Py.BACKSLASH) as [->|Hb]; [reflexivity|].
  destruct (Ascii.eqb_spec c Py.LF) as [->|Hn]; [reflexivity|].
  destruct (Ascii.eqb_spec c Py.CR) as [->|Hr]; [reflexivity|].
  simpl. destruct (Ascii.eqb_spec c Py.BACKSLASH); [contradiction | reflexivity].
Qed.

Lemma scan_escape (s : string) : unescape_scan (escape_for_arduino s) = s.
Proof.
  induction s as [|c s IH]; [reflexivity|].
  now rewrite escape_cons, scan_escape_char, IH.
Qed.

(** The loop with its index computes the scan of the remaining suffix. *)
Lemma unescape_loop_suffix (fuel : nat) :
  forall (pre s : string) (out : list ascii),
    String.length s <= fuel ->
    unescape_loop fuel (pre ++ s) (String.length pre) out
    = Some (out ++ list_ascii_of_string (unescape_scan s))%list.
Proof.
  induction fuel as [fuel IH] using lt_wf_ind.
  intros pre s out Hfuel.
  destruct s as [|c r].
  - destruct fuel; simpl; rewrite append_nil_r, Nat.ltb_irrefl, app_nil_r;
      reflexivity.
  - destruct fuel as [|fuel']; [simpl in Hfuel; lia|].
    cbn [unescape_loop].
    assert (Hlt : Nat.ltb (String.length pre) (String.length (pre ++ String c r)) = true).
    { apply Nat.ltb_lt. rewrite length_app. simpl. lia. }
    rewrite Hlt, get_app_at.
    assert (Hstep : forall p x y, p ++ String x y = (p ++ String x "") ++ y).
    { intros p x y. now rewrite append_assoc. }
    assert (Hlen1 : String.length pre + 1 = String.length (pre ++ String c "")).
    { rewrite length_app. reflexivity. }
    cbn [unescape_scan].
    destruct (Ascii.eqb c Py.BACKSLASH) eqn:Hc.
    + destruct r as [|nxt r'].
      * assert (Hnl : Nat.ltb (String.length pre + 1)
                        (String.length (pre ++ String c "")) = false).
        { apply Nat.ltb_ge. rewrite length_app. simpl. lia. }
        rewrite Hnl. cbn [andb].
        rewrite Hlen1.
        rewrite <- (append_nil_r (pre ++ String c "")) at 1.
        rewrite (IH fuel' (Nat.lt_succ_diag_r _) (pre ++ String c "") "" (out ++ [c])%list);
          [|simpl; lia].
        simpl. now rewrite app_nil_r.
      * assert (Hl2 : Nat.ltb (String.length pre + 1)
                        (String.length (pre ++ String c (String nxt r'))) = true).
        { apply Nat.ltb_lt. rewrite length_app. simpl. lia. }
        rewrite Hl2. cbn [andb].
        rewrite (Hstep pre c (String nxt r')), Hlen1, get_app_at.
        rewrite (Hstep (pre ++ String c "") nxt r').
        replace (String.length pre + 2)
          with (String.length ((pre ++ String c "") ++ String nxt ""))
          by (rewrite !length_app; simpl; lia).
        rewrite (IH fuel' (Nat.lt_succ_diag_r _)); [|simpl in Hfuel; lia].
        simpl. now rewrite <- app_assoc.
    + cbn [andb].
      rewrite (Hstep pre c r), Hlen1.
      rewrite (IH fuel' (Nat.lt_succ_diag_r _)); [|simpl in Hfuel; lia].
      simpl. now rewrite <- app_assoc.
Qed.

(** With one unit of fuel per character the loop of the source ends and
    returns the scan. *)
Lemma unescape_loop_total (s : string) :
  unescape_loop (String.length s) s 0 []
  = Some (list_ascii_of_string (unescape_scan s)).
Proof. exact (unescape_loop_suffix (String.length s) "" s [] (Nat.le_refl _)). Qed.

Lemma unescape_is_scan (s : string) : unescape_from_arduino s = unescape_scan s.
Proof.
  unfold unescape_from_arduino.
  now rewrite unescape_loop_total, string_of_list_ascii_of_string.
Qed.

Lemma unescape_escape (s : string) :
  unescape_from_arduino (escape_for_arduino s) = s.
Proof. rewrite unescape_is_scan. apply scan_escape. Qed.

(** After an escaped text the scan is at the start of a character: a
    backslash that ends the text there stands alone. *)
Lemma scan_escape_then (s rest : string) :
  unescape_scan (escape_for_arduino s ++ rest) = s ++ unescape_scan rest.
Proof.
  induction s as [|c s IH]; [reflexivity|].
  rewrite escape_cons, append_assoc, scan_escape_char, IH. reflexivity.
Qed.

Lemma scan_trailing_backslash (s : string) :
  exists out, unescape_scan (s ++ "\") = out ++ "\".
Proof.
  induction s as [|c|c c' s IHs IHc] using string_pair_ind.
  - exists "". reflexivity.
  - destruct (Ascii.eqb c Py.BACKSLASH) eqn:Hc.
    + exists "". simpl. rewrite Hc. reflexivity.
    + exists (String c ""). simpl. rewrite Hc. reflexivity.
  - destruct (Ascii.eqb c Py.BACKSLASH) eqn:Hc.
    + destruct IHs as [o Ho]. exists (String (unescape_pair c') o).
      simpl. rewrite Hc. simpl in Ho. rewrite Ho. reflexivity.
    + destruct IHc as [o Ho]. exists (String c o).
      simpl. rewrite Hc. simpl in Ho. simpl. rewrite Ho. reflexivity.
Qed.

End EscapeFacts.

(** ** The claims on the text transforms *)

Section TransformClaims.

(** C1 (escape round trip): [unescape_from_arduino (escape_for_arduino s)]
    is [s] for every string [s], so in particular for every string made of
    printable characters, line feeds and carriage returns; and the loop of
    the source, run with its index over the escaped text, ends and returns
    the characters of [s]. *)
Theorem escape_round_trip :
  (forall s : string, unescape_from_arduino (escape_for_arduino s) = s)
  /\ (forall s : string,
        let e := escape_for_arduino s in
        unescape_loop (String.length e) e 0 [] = Some (list_ascii_of_string s)).
Proof.
  split; [exact unescape_escape|].
  intros s e. subst e. now rewrite unescape_loop_total, scan_escape.
Qed.

(** C6 (escape ordering): escaping the two characters backslash, [n] gives
    backslash, backslash, [n]; escaping a line feed gives backslash, [n];
    the two differ and each unescapes to its original. Had the line feeds
    been replaced before the backslashes, the line feed would have been
    escaped to the same text as backslash, [n]. *)
Theorem escape_ordering :
  escape_for_arduino "\n" = "\\n"
  /\ escape_for_arduino Py.nl = "\n"
  /\ String.eqb (escape_for_arduino "\n") (escape_for_arduino Py.nl) = false
  /\ unescape_from_arduino (escape_for_arduino "\n") = "\n"
  /\ unescape_from_arduino (escape_for_arduino Py.nl) = Py.nl
  /\ Py.replace Py.BACKSLASH "\\" (Py.replace Py.LF "\n" Py.nl)
     = escape_for_arduino "\n".
Proof. repeat split. Qed.

(** C7 (permissive unescape): a backslash followed by a character [c]
    yields one character: line feed for [n], carriage return for [r],
    backslash for backslash and [c] itself for any other [c]; no input
    raises. When the scan arrives at a backslash that is the last character
    it appends that backslash: so it is after any escaped text, and the
    text unescaped from a string ending in a backslash ends in a
    backslash. *)
Theorem unescape_permissive :
  (forall (c : ascii) (rest : string),
      unescape_from_arduino (String Py.BACKSLASH (String c rest))
      = String (unescape_pair c) (unescape_from_arduino rest))
  /\ unescape_pair "n" = Py.LF
  /\ unescape_pair "r" = Py.CR
  /\ unescape_pair Py.BACKSLASH = Py.BACKSLASH
  /\ (forall c : ascii, c <> "n"%char -> c <> "r"%char -> unescape_pair c = c)
  /\ (forall (p : string) (out : list ascii) (fuel : nat),
        unescape_loop (S fuel) (p ++ "\") (String.length p) out
        = Some (out ++ [Py.BACKSLASH])%list)
  /\ (forall s : string,
        unescape_from_arduino (escape_for_arduino s ++ "\") = s ++ "\")
  /\ (forall s : string, exists out : string,
        unescape_from_arduino (s ++ "\") = out ++ "\")
  /\ unescape_from_arduino "\" = "\".
Proof.
  split; [intros c rest; now rewrite !unescape_is_scan|].
  split; [reflexivity|].
  split; [reflexivity|].
  split; [reflexivity|].
  split.
  { intros c Hn Hr. unfold unescape_pair.
    destruct (Ascii.eqb_spec c "n"); [contradiction|].
    destruct (Ascii.eqb_spec c "r"); [contradiction|].
    destruct (Ascii.eqb_spec c Py.BACKSLASH); [symmetry; assumption | reflexivity]. }
  split.
  { intros p out fuel. cbn [unescape_loop].
    assert (H1 : Nat.ltb (String.length p) (String.length (p ++ "\")) = true).
    { apply Nat.ltb_lt. rewrite length_app. simpl. lia. }
    assert (H2 : Nat.ltb (String.length p + 1) (String.length (p ++ "\")) = false).
    { apply Nat.ltb_ge. rewrite length_app. simpl. lia. }
    rewrite H1, get_app_at, H2. cbn [Ascii.eqb andb].
    change (Ascii.eqb "\" Py.BACKSLASH) with true. cbn [andb].
    destruct fuel; cbn [unescape_loop]; rewrite H2; reflexivity. }
  split; [intro s; now rewrite unescape_is_scan, scan_escape_then|].
  split; [|reflexivity].
  intro s. rewrite unescape_is_scan. apply scan_trailing_backslash.
Qed.

(** A character that is no escape letter passes through after a backslash. *)
Lemma unescape_permissive_witness :
  unescape_pair "x" = "x"%char.
Proof.
  apply (proj1 (proj2 (proj2 (proj2 (proj2 unescape_permissive)))));
    discriminate.
Defined.

End TransformClaims.

(** ** bytes_to_text *)

Section BytesToText.

Lemma code_chr (x : Byte.byte) : Py.code (Py.chr x) = Byte.to_N x.
Proof.
  unfold Py.code, Py.chr. rewrite ascii_of_byte_via_N.
  apply N_ascii_embedding. pose proof (Byte.to_N_bounded x). lia.
Qed.

Lemma keeps_spec (x : Byte.byte) :
  keeps x = true <->
  (32 <= Byte.to_N x <= 126)%N \/ Byte.to_N x = 10%N.
Proof.
  unfold keeps. cbv zeta.
  rewrite orb_true_iff, andb_true_iff, !N.leb_le, N.eqb_eq. tauto.
Qed.

Lemma bytes_to_text_filter (b : list Byte.byte) :
  bytes_to_text b = string_of_list_ascii (map Py.chr (filter keeps b)).
Proof.
  induction b as [|x b IH]; simpl; [reflexivity|].
  destruct (keeps x); simpl; now rewrite IH.
Qed.

Lemma bytes_to_text_app (a b : list Byte.byte) :
  bytes_to_text (a ++ b) = bytes_to_text a ++ bytes_to_text b.
Proof.
  induction a as [|x a IH]; simpl; [reflexivity|].
  now rewrite IH, append_assoc.
Qed.

(** C3 (bytes_to_text filter): the text is the kept bytes, in order, each
    as the character of the same code; a byte is kept exactly when it lies
    in 32..126 or is 10, so carriage return, NUL, DEL, the bytes from 128 up
    and the other control bytes are dropped; and the bytes
    72,101,0,10,127,108,108,111 give H, e, line feed, l, l, o. *)
Theorem bytes_to_text_keeps_printable :
  (forall b : list Byte.byte,
      bytes_to_text b = string_of_list_ascii (map Py.chr (filter keeps b)))
  /\ (forall x : Byte.byte, Py.code (Py.chr x) = Byte.to_N x)
  /\ (forall x : Byte.byte,
        keeps x = true <->
        (32 <= Byte.to_N x <= 126)%N \/ Byte.to_N x = 10%N)
  /\ keeps Byte.x0d = false /\ keeps Byte.x00 = false /\ keeps Byte.x7f = false
  /\ (forall x : Byte.byte, (128 <= Byte.to_N x)%N -> keeps x = false)
  /\ (forall x : Byte.byte,
        (Byte.to_N x < 32)%N -> Byte.to_N x <> 10%N -> keeps x = false)
  /\ bytes_to_text [Byte.x48; Byte.x65; Byte.x00; Byte.x0a; Byte.x7f;
                    Byte.x6c; Byte.x6c; Byte.x6f]
     = "He" ++ String Py.LF "llo".
Proof.
  split; [exact bytes_to_text_filter|].
  split; [exact code_chr|].
  split; [exact keeps_spec|].
  split; [reflexivity|]. split; [reflexivity|]. split; [reflexivity|].
  split.
  { intros x Hx. apply not_true_is_false. rewrite keeps_spec. lia. }
  split; [|reflexivity].
  intros x Hx Hne. apply not_true_is_false. rewrite keeps_spec. lia.
Qed.

(** The byte 200 has its high bit set and is dropped. *)
Lemma bytes_to_text_keeps_printable_witness :
  keeps Byte.xc8 = false.
Proof.
  apply (proj1 (proj2 (proj2 (proj2 (proj2 (proj2 (proj2
           bytes_to_text_keeps_printable))))))).
  vm_compute. discriminate.
Defined.

End BytesToText.

(** ** The serial client *)

Section ClientFacts.

Lemma add_events_nil (st : App) : add_events [] st = st.
Proof.
  destruct st as [c g [tr inc co]]. unfold add_events, with_world; simpl.
  now rewrite app_nil_r.
Qed.

Lemma add_events_app (a b : list event) (st : App) :
  add_events b (add_events a st) = add_events (a ++ b) st.
Proof.
  destruct st as [c g [tr inc co]]. unfold add_events, with_world; simpl.
  now rewrite app_assoc.
Qed.

Lemma poll_spec (chunks : list (list Byte.byte)) :
  forall (buf : list Byte.byte) (st : App),
    poll chunks buf st
    = Done (buf ++ concat chunks)%list (add_events (poll_events chunks) st).
Proof.
  induction chunks as [|avail rest IH]; intros buf st.
  - simpl. now rewrite app_nil_r, add_events_nil.
  - destruct avail as [|x avail]; simpl.
    + unfold bind, sleep, log, modify. rewrite IH.
      fold (add_events [EvSleep 10] st). now rewrite add_events_app.
    + unfold bind, log, modify. rewrite IH.
      fold (add_events [EvRead (x :: avail)] st).
      now rewrite add_events_app, <- app_assoc.
Qed.

(** [send_line] without a connection: nothing is sent, nothing is read. *)
Lemma send_line_closed (line : string) (st : App) :
  is_open (client st) = false -> send_line line st = Done [] st.
Proof.
  intro H. unfold send_line, bind, get. now rewrite H.
Qed.

(** [send_line] with a connection: one exchange. *)
Lemma send_line_open (line : string) (st : App) :
  is_open (client st) = true ->
  send_line line st = Done (reply st) (after_exchange line st).
Proof.
  intro H. unfold send_line, bind, get, log, modify, next_window. rewrite H.
  cbn [negb]. destruct st as [c g [tr inc co]]; cbn.
  destruct inc as [|w rest]; cbn -[poll]; rewrite poll_spec;
    unfold add_events, after_exchange, with_world, reply, window, wire; cbn;
    now rewrite <- !app_assoc.
Qed.

Lemma refresh_files_closed (st : App) :
  is_open (client st) = false -> refresh_files st = Done tt st.
Proof.
  intro H. unfold refresh_files, bind, get. now rewrite H.
Qed.

Lemma refresh_files_open (st : App) :
  is_open (client st) = true -> refresh_files st = Done tt (after_refresh st).
Proof.
  intro H. unfold refresh_files, bind, get. rewrite H. cbn [negb].
  now rewrite send_line_open.
Qed.

Lemma written_app (a b : list event) :
  written (a ++ b) = (written a ++ written b)%list.
Proof.
  induction a as [|e a IH]; [reflexivity|].
  destruct e; simpl; now rewrite IH.
Qed.

Lemma written_poll_events (chunks : list (list Byte.byte)) :
  written (poll_events chunks) = [].
Proof.
  induction chunks as [|[|x avail] rest IH]; simpl; auto.
Qed.

Lemma written_after_exchange (line : string) (st : App) :
  written (trace (world (after_exchange line st)))
  = (written (trace (world st)) ++ [wire line])%list.
Proof.
  unfold after_exchange, with_world. cbn [world trace].
  rewrite written_app. f_equal. cbn [app written].
  now rewrite written_poll_events.
Qed.

Lemma written_after_refresh (st : App) :
  written (trace (world (after_refresh st)))
  = (written (trace (world st)) ++ [wire "LIST"])%list.
Proof. exact (written_after_exchange "LIST" st). Qed.

End ClientFacts.

(** ** The window: items, selection and the guard on the connection *)

Section WindowFacts.

Lemma slot_iids_int (item : string) :
  In item slot_iids -> exists idx : Z, Py.int item = Ok idx.
Proof.
  intros [<-|[<-|[<-|[]]]]; eexists; reflexivity.
Qed.

Lemma gui_ok_selection (g : Gui) (item : string) :
  gui_ok g = true -> selection g = Some item -> In item slot_iids.
Proof.
  unfold gui_ok. intros H Hsel. rewrite Hsel in H.
  apply andb_true_iff in H as [Hall Hex].
  apply existsb_exists in Hex as (r & Hr & Heq).
  apply String.eqb_eq in Heq. subst item.
  rewrite forallb_forall in Hall. specialize (Hall r Hr).
  apply existsb_exists in Hall as (x & Hx & Heq).
  apply String.eqb_eq in Heq. now rewrite Heq.
Qed.

(** With the items the window creates, reading the selected index never
    raises and changes nothing. *)
Lemma get_selected_index_ok (st : App) :
  gui_ok (gui st) = true ->
  exists o : option Z, _get_selected_index st = Done o st.
Proof.
  intro Hok. unfold _get_selected_index, bind, get.
  destruct (selection (gui st)) as [item|] eqn:Hsel.
  - destruct (slot_iids_int item (gui_ok_selection _ _ Hok Hsel)) as [idx Hidx].
    rewrite Hidx. exists (Some idx). reflexivity.
  - exists None. reflexivity.
Qed.

Lemma get_selected_index_some (st : App) (item : string) (idx : Z) :
  selection (gui st) = Some item -> Py.int item = Ok idx ->
  _get_selected_index st = Done (Some idx) st.
Proof.
  intros Hsel Hidx. unfold _get_selected_index, bind, get.
  now rewrite Hsel, Hidx.
Qed.

Lemma gui_ok_listing (raw : list Byte.byte) (g : Gui) :
  gui_ok (set_tree (listing_rows raw) None g) = true.
Proof.
  unfold gui_ok, listing_rows, slot_row. cbn [tree selection set_tree].
  rewrite andb_true_r. cbn [FILE_COUNT seq map forallb].
  repeat match goal with
         | |- context [slot_entry ?l ?i] => destruct (slot_entry l i)
         end.
  reflexivity.
Qed.

Lemma gui_ok_after_refresh (st : App) : gui_ok (gui (after_refresh st)) = true.
Proof. unfold after_refresh. cbn [gui with_gui]. apply gui_ok_listing. Qed.

(** The rows and the selection are all that [gui_ok] looks at. *)
Lemma gui_ok_same_tree (g g' : Gui) :
  tree g' = tree g -> selection g' = selection g -> gui_ok g' = gui_ok g.
Proof. unfold gui_ok. now intros -> ->. Qed.

End WindowFacts.

(** ** Opening the port *)

Section ConnectFacts.

Lemma connect_opens (st : App) :
  can_open (world st) (port (client st)) = true ->
  exists st' : App,
    connect st = Done tt st'
    /\ is_open (client st') = true
    /\ gui st' = gui st.
Proof.
  destruct st as [[p b t o] g [tr inc co]]. cbn [world client can_open port].
  intro Hcan.
  unfold connect, close, Serial_new, sleep, log, modify, bind, get, ret.
  cbn [client ser].
  destruct o as [[sp sb stm [|]]|]; cbn; rewrite Hcan;
    eexists; repeat split.
Qed.

Lemma connect_fails (st : App) :
  can_open (world st) (port (client st)) = false ->
  exists st' : App,
    connect st = Fail SerialException st'
    /\ is_open (client st') = false
    /\ gui st' = gui st.
Proof.
  destruct st as [[p b t o] g [tr inc co]]. cbn [world client can_open port].
  intro Hcan.
  unfold connect, close, Serial_new, sleep, log, modify, bind, get, ret, raise.
  cbn [client ser].
  destruct o as [[sp sb stm [|]]|]; cbn; rewrite Hcan;
    eexists; repeat split.
Qed.

End ConnectFacts.

(** ** The items of the tree are always those of a listing *)

Section Invariant.

Local Ltac same_tree := erewrite gui_ok_same_tree; [eassumption | reflexivity ..].

Lemma refresh_files_gui_ok (st : App) :
  gui_ok (gui st) = true ->
  gui_ok (gui (final_state (refresh_files st))) = true.
Proof.
  intro Hok. destruct (is_open (client st)) eqn:Hopen.
  - rewrite refresh_files_open by exact Hopen. apply gui_ok_after_refresh.
  - now rewrite refresh_files_closed.
Qed.

Lemma read_selected_gui_ok (st : App) :
  gui_ok (gui st) = true ->
  gui_ok (gui (final_state (read_selected st))) = true.
Proof.
  intro Hok. destruct (get_selected_index_ok st Hok) as [o Ho].
  unfold read_selected, bind, get. rewrite Ho.
  destruct o as [idx|]; [|exact Hok].
  destruct (is_open (client st)) eqn:Hopen; [|exact Hok]. cbn [negb].
  rewrite send_line_open by exact Hopen.
  unfold try_except, tree_set_name, bind, get, modify, raise, ret.
  cbn [gui with_gui after_exchange with_world set_editor tree].
  destruct (find _ (tree (gui st))); cbn; same_tree.
Qed.

Lemma write_selected_gui_ok (st : App) :
  gui_ok (gui st) = true ->
  gui_ok (gui (final_state (write_selected st))) = true.
Proof.
  intro Hok. destruct (get_selected_index_ok st Hok) as [o Ho].
  unfold write_selected, bind, get. rewrite Ho.
  destruct o as [idx|]; [|exact Hok].
  destruct (is_open (client st)) eqn:Hopen; [|exact Hok]. cbn [negb].
  rewrite send_line_open by exact Hopen.
  unfold sleep, log, _set_status, modify.
  rewrite refresh_files_open by exact Hopen.
  apply gui_ok_after_refresh.
Qed.

Lemma rename_selected_gui_ok (answer : option string) (st : App) :
  gui_ok (gui st) = true ->
  gui_ok (gui (final_state (rename_selected answer st))) = true.
Proof.
  intro Hok. destruct (get_selected_index_ok st Hok) as [o Ho].
  unfold rename_selected, bind, get. rewrite Ho.
  destruct o as [idx|]; [|exact Hok].
  destruct (is_open (client st)) eqn:Hopen; [|exact Hok]. cbn [negb].
  destruct answer as [newname|]; [|exact Hok].
  destruct (Py.truthy newname); [|exact Hok]. cbn [negb].
  rewrite send_line_open by exact Hopen.
  unfold sleep, log, _set_status, modify.
  rewrite refresh_files_open by exact Hopen.
  apply gui_ok_after_refresh.
Qed.

Lemma delete_selected_gui_ok (yes : bool) (st : App) :
  gui_ok (gui st) = true ->
  gui_ok (gui (final_state (delete_selected yes st))) = true.
Proof.
  intro Hok. destruct (get_selected_index_ok st Hok) as [o Ho].
  unfold delete_selected, bind, get. rewrite Ho.
  destruct o as [idx|]; [|exact Hok].
  destruct (is_open (client st)) eqn:Hopen; [|exact Hok]. cbn [negb].
  destruct yes; [|exact Hok]. cbn [negb].
  rewrite send_line_open by exact Hopen.
  unfold _set_status, modify.
  rewrite refresh_files_open by exact Hopen.
  apply gui_ok_after_refresh.
Qed.

(** After [connect], whether it raised or not, with the status set. *)
Lemma connect_then_refresh_gui_ok (status : string) (k : M unit) (st : App) :
  gui_ok (gui st) = true ->
  (forall st', gui_ok (gui st') = true -> gui_ok (gui (final_state (k st'))) = true) ->
  gui_ok (gui (final_state
    (try_except (connect ;; k)%app (_set_status status) st))) = true.
Proof.
  intros Hok Hk. unfold try_except, bind.
  destruct (can_open (world st) (port (client st))) eqn:Hcan.
  - destruct (connect_opens st Hcan) as (st' & -> & _ & Hgui).
    specialize (Hk st'). rewrite Hgui in Hk. specialize (Hk Hok).
    destruct (k st') as [[] st''|e st'']; cbn in *; [exact Hk|].
    unfold _set_status, modify; cbn. same_tree.
  - destruct (connect_fails st Hcan) as (st' & -> & _ & Hgui).
    unfold _set_status, modify; cbn. rewrite Hgui. same_tree.
Qed.

Lemma toggle_connect_gui_ok (st : App) :
  gui_ok (gui st) = true ->
  gui_ok (gui (final_state (toggle_connect st))) = true.
Proof.
  intro Hok. unfold toggle_connect. unfold bind at 1. unfold get at 1.
  destruct (is_open (client st)) eqn:Hopen.
  - unfold close, bind, get, log, modify, ret, _set_status.
    destruct (ser (client st)) as [[sp sb stm [|]]|]; cbn; same_tree.
  - destruct (Py.truthy (Py.strip (port_var (gui st)))); [|exact Hok].
    cbn [negb]. unfold bind at 1. unfold modify at 1.
    apply connect_then_refresh_gui_ok; [exact Hok|].
    intros st' Hok'. unfold bind, _set_status, modify.
    match goal with
    | |- context [refresh_files ?s] =>
        pose proof (refresh_files_gui_ok s) as Hr
    end.
    apply Hr. cbn. same_tree.
Qed.

Lemma app_init_gui_ok (w : World) :
  gui_ok (gui (final_state (app_init w))) = true.
Proof.
  unfold app_init.
  apply connect_then_refresh_gui_ok; [reflexivity|].
  intros st' Hok'. unfold bind, get, _set_status, modify.
  match goal with
  | |- context [refresh_files ?s] =>
      pose proof (refresh_files_gui_ok s) as Hr
  end.
  apply Hr. cbn. same_tree.
Qed.

Lemma perform_gui_ok (a : action) (st : App) :
  gui_ok (gui st) = true ->
  gui_ok (gui (final_state (perform a st))) = true.
Proof.
  intro Hok. destruct a; cbn [perform].
  - now apply refresh_files_gui_ok.
  - now apply read_selected_gui_ok.
  - now apply write_selected_gui_ok.
  - now apply rename_selected_gui_ok.
  - now apply delete_selected_gui_ok.
  - now apply toggle_connect_gui_ok.
  - unfold select, modify. cbn [final_state].
    destruct (existsb _ (tree (gui st))) eqn:Hex; [|exact Hok].
    unfold gui_ok in *. cbn [gui with_gui tree selection set_tree].
    apply andb_true_iff in Hok as [Hall _]. now rewrite Hall, Hex.
  - unfold modify. cbn. same_tree.
  - unfold modify. cbn. same_tree.
Qed.

Lemma run_gui_ok (acts : list action) :
  forall st : App,
    gui_ok (gui st) = true -> gui_ok (gui (run acts st)) = true.
Proof.
  induction acts as [|a acts IH]; intros st Hok; [exact Hok|].
  cbn [run]. apply IH. now apply perform_gui_ok.
Qed.

End Invariant.

(** ** Trailing characters *)

Section StripFacts.

Variable p : ascii -> bool.

Lemma rstrip_by_snoc (s : string) (c : ascii) :
  p c = true -> Py.rstrip_by p (s ++ String c "") = Py.rstrip_by p s.
Proof.
  intro Hc. induction s as [|x s IH]; simpl.
  - now rewrite Hc.
  - now rewrite IH.
Qed.

Lemma rstrip_by_no_trailing (s : string) :
  forall (u : string) (c : ascii),
    p c = true -> Py.rstrip_by p s <> u ++ String c "".
Proof.
  induction s as [|x s IH]; intros u c Hc; simpl.
  - destruct u; discriminate.
  - destruct (p x && Py.is_empty (Py.rstrip_by p s)) eqn:Hcond.
    + destruct u; discriminate.
    + destruct u as [|y u]; simpl; intro Heq; injection Heq as Hx Hr.
      * subst x. rewrite Hr, Hc in Hcond. discriminate.
      * exact (IH u c Hc Hr).
Qed.

End StripFacts.

Section TakeFacts.

Lemma take_length (n : nat) :
  forall s : string, String.length (Py.take n s) = Nat.min n (String.length s).
Proof.
  induction n as [|n IH]; intros [|c s]; simpl; auto.
Qed.

Lemma take_prefix (n : nat) :
  forall s : string, exists rest : string, s = Py.take n s ++ rest.
Proof.
  induction n as [|n IH]; intros s.
  - exists s. reflexivity.
  - destruct s as [|c s].
    + exists "". reflexivity.
    + destruct (IH s) as [rest Hrest]. exists rest. simpl. now rewrite <- Hrest.
Qed.

End TakeFacts.

(** ** The claims on the connection and the file operations *)

Section OperationClaims.

(** C4 (no connection, no operation): while the connection is not open,
    [send_line] returns the empty byte string, and each of list, read,
    write, rename and delete returns at once, without raising: the state of
    the application, and with it the trace of the serial port and the
    script of the device, is the one it started from. This holds in every
    state whose tree items are those of a listing, and the window is always
    in such a state, whatever the user has done since it was created. *)
Theorem not_connected_is_no_op :
  (forall (w : World) (acts : list action),
      gui_ok (gui (run acts (final_state (app_init w)))) = true)
  /\ (forall st : App,
        is_open (client st) = false ->
        gui_ok (gui st) = true ->
        (forall line : string, send_line line st = Done [] st)
        /\ refresh_files st = Done tt st
        /\ read_selected st = Done tt st
        /\ write_selected st = Done tt st
        /\ (forall answer : option string, rename_selected answer st = Done tt st)
        /\ (forall yes : bool, delete_selected yes st = Done tt st)).
Proof.
  split.
  { intros w acts. apply run_gui_ok, app_init_gui_ok. }
  intros st Hclosed Hok.
  destruct (get_selected_index_ok st Hok) as [o Ho].
  split; [intro line; now apply send_line_closed|].
  split; [now apply refresh_files_closed|].
  unfold read_selected, write_selected, rename_selected, delete_selected,
    bind, get.
  rewrite Ho.
  destruct o as [idx|]; rewrite ?Hclosed; repeat split; reflexivity.
Qed.

(** A window that was connected, has slot 2 selected and was disconnected:
    reading and writing do nothing. *)
Lemma not_connected_is_no_op_witness :
  read_selected disconnected_app = Done tt disconnected_app
  /\ write_selected disconnected_app = Done tt disconnected_app.
Proof.
  destruct (proj2 not_connected_is_no_op disconnected_app)
    as (_ & _ & Hr & Hw & _);
    [reflexivity | reflexivity | split; assumption].
Defined.

(** C8, as the code has it (rename truncation): with an open connection
    and slot [idx] selected, renaming with a name that is not empty sends
    the line WRITE_NAME, [idx], the first 9 characters of the name, and
    then lists the files again; the name sent is a prefix of the name given
    and has at most 9 characters, exactly 9 for "verylongfilename". With
    the empty name, or when the dialog is cancelled, the operation returns
    at once: nothing is sent and the state is the one it started from. *)
Theorem rename_sends_truncated_name
  (st : App) (item : string) (idx : Z) :
  is_open (client st) = true ->
  selection (gui st) = Some item ->
  Py.int item = Ok idx ->
  (forall newname : string,
      newname <> "" ->
      (exists st' : App,
          rename_selected (Some newname) st = Done tt st'
          /\ written (trace (world st'))
             = (written (trace (world st))
                  ++ [wire ("WRITE_NAME " ++ Py.str_of_int idx ++ " "
                              ++ Py.take 9 newname);
                      wire "LIST"])%list)
      /\ String.length (Py.take 9 newname) = Nat.min 9 (String.length newname)
      /\ (exists rest : string, newname = Py.take 9 newname ++ rest))
  /\ rename_selected (Some "") st = Done tt st
  /\ rename_selected None st = Done tt st
  /\ Py.take 9 "verylongfilename" = "verylongf".
Proof.
  intros Hopen Hsel Hidx.
  assert (Hnothing : rename_selected (Some "") st = Done tt st
                     /\ rename_selected None st = Done tt st).
  { unfold rename_selected, bind, get.
    rewrite (get_selected_index_some st item idx Hsel Hidx), Hopen.
    split; reflexivity. }
  split; [|split; [exact (proj1 Hnothing) | split; [exact (proj2 Hnothing) | reflexivity]]].
  intros newname Hname.
  split; [|split; [apply take_length | apply take_prefix]].
  unfold rename_selected, bind, get.
  rewrite (get_selected_index_some st item idx Hsel Hidx), Hopen.
  cbn [negb].
  destruct newname as [|c r]; [contradiction|]. cbn [Py.truthy Py.is_empty negb].
  rewrite send_line_open by exact Hopen.
  unfold sleep, log, _set_status, modify.
  rewrite refresh_files_open by exact Hopen.
  eexists. split; [reflexivity|].
  rewrite written_after_refresh. cbn [world with_world with_gui trace].
  rewrite written_app, written_after_exchange. cbn [written app].
  now rewrite <- !app_assoc.
Qed.

Lemma rename_sends_truncated_name_witness :
  (exists st' : App,
     rename_selected (Some "verylongfilename") connected_app = Done tt st'
     /\ written (trace (world st'))
        = (written (trace (world connected_app))
             ++ [wire "WRITE_NAME 2 verylongf"; wire "LIST"])%list)
  /\ rename_selected (Some "") connected_app = Done tt connected_app
  /\ rename_selected None connected_app = Done tt connected_app.
Proof.
  destruct (rename_sends_truncated_name connected_app "2" 2 eq_refl eq_refl eq_refl)
    as (Hsend & Hempty & Hcancel & _).
  split; [|split; [exact Hempty | exact Hcancel]].
  exact (proj1 (Hsend "verylongfilename" ltac:(discriminate))).
Defined.

(** C8, as stated, fails for the empty name: nothing is sent at all. *)
Lemma rename_empty_name_sends_nothing :
  rename_selected (Some "") connected_app = Done tt connected_app
  /\ ~ In (wire ("WRITE_NAME 2 " ++ Py.take 9 ""))
          (written (trace (world
             (final_state (rename_selected (Some "") connected_app))))).
Proof.
  split; [reflexivity|].
  vm_compute. intro H.
  repeat (destruct H as [H|H]; [discriminate H|]). exact H.
Qed.

(** C9, as the code has it (connect): with a port that opens, [connect]
    closes the port it holds if that is open, opens the port, waits the
    settle delay of 150 ms and then clears the input: these events, in this
    order, are what it adds to the trace, and it returns with the
    connection open. *)
Theorem connect_waits_then_clears (st : App) :
  can_open (world st) (port (client st)) = true ->
  exists st' : App,
    connect st = Done tt st'
    /\ is_open (client st') = true
    /\ gui st' = gui st
    /\ trace (world st')
       = (trace (world st)
            ++ (if is_open (client st) then [EvClose] else [])
            ++ [EvOpen (port (client st)) (baud (client st)) (timeout (client st));
                EvSleep 150;
                EvResetInput])%list.
Proof.
  destruct st as [[p b t o] g [tr inc co]]. cbn [world client can_open port].
  intro Hcan.
  unfold connect, close, Serial_new, sleep, log, modify, bind, get, ret.
  cbn [client ser].
  destruct o as [[sp sb stm [|]]|]; cbn; rewrite Hcan; cbn;
    eexists; (split; [reflexivity|]); cbn;
    repeat split; now rewrite <- ?app_assoc.
Qed.

Lemma connect_waits_then_clears_witness :
  exists st' : App,
    connect (fresh_app open_world) = Done tt st'
    /\ is_open (client st') = true
    /\ gui st' = initial_gui
    /\ trace (world st') = [EvOpen "COM9" 9600 100; EvSleep 150; EvResetInput].
Proof.
  exact (connect_waits_then_clears (fresh_app open_world) eq_refl).
Defined.

(** C9, as stated, fails: in the trace of [connect] no clearing of the
    input comes before the settle delay. *)
Lemma connect_clears_before_waiting_fails :
  ~ exists l1 l2 l3 : list event,
      trace (world (final_state (connect (fresh_app open_world))))
      = (l1 ++ EvResetInput :: l2 ++ EvSleep 150 :: l3)%list.
Proof.
  intros (l1 & l2 & l3 & H).
  change (trace (world (final_state (connect (fresh_app open_world)))))
    with [EvOpen "COM9" 9600 100; EvSleep 150; EvResetInput] in H.
  destruct l1 as [|e1 [|e2 [|e3 l1]]]; try discriminate H.
  - injection H as _ _ H. destruct l2 as [|? [|? ?]]; discriminate H.
  - injection H as _ _ _ H. destruct l1; discriminate H.
Qed.



End OperationClaims.

(** ** Splitting *)

Section SplitFacts.

Lemma all_chars_app (p : ascii -> bool) (a b : string) :
  all_chars p (a ++ b) = all_chars p a && all_chars p b.
Proof.
  induction a as [|c a IH]; simpl; [reflexivity|].
  now rewrite IH, andb_assoc.
Qed.

Variable sep : ascii.





End SplitFacts.

Section WordFacts.



End WordFacts.

(** ** The scan of the listing *)

Section ListingFacts.

Lemma all_chars_weaken (p q : ascii -> bool) (s : string) :
  (forall c, p c = true -> q c = true) ->
  all_chars p s = true -> all_chars q s = true.
Proof.
  intro Hpq. induction s as [|c s IH]; simpl; [reflexivity|].
  intro H. apply andb_true_iff in H as [Hc Hs].
  now rewrite (Hpq c Hc), (IH Hs).
Qed.


Lemma scan_lines_app (pfx : string) (l1 l2 : list string) (label : string) (size : Z) :
  scan_lines pfx (l1 ++ l2) label size
  = if existsb (fun ln => Py.startswith ln pfx) l1
    then scan_lines pfx l1 label size
    else scan_lines pfx l2 label size.
Proof.
  induction l1 as [|ln l1 IH]; simpl; [reflexivity|].
  destruct (Py.startswith ln pfx); simpl; [reflexivity | exact IH].
Qed.

Lemma forallb_negb_existsb {A} (f : A -> bool) (l : list A) :
  forallb (fun x => negb (f x)) l = negb (existsb f l).
Proof.
  induction l as [|x l IH]; simpl; [reflexivity|].
  now rewrite IH, negb_orb.
Qed.


(** The first line that starts with the prefix decides. *)
Lemma slot_entry_first (before after : list string) (ln : string) (i : nat) :
  forallb (fun l => negb (starts_slot i l)) before = true ->
  starts_slot i ln = true ->
  slot_entry (before ++ ln :: after) i
  = match parse_line ln with
    | Ok (name, s) => (name, s)
    | Raise _ => ("(empty)", 0%Z)
    end.
Proof.
  intros Hb Hln. unfold slot_entry. rewrite scan_lines_app.
  rewrite forallb_negb_existsb in Hb. apply negb_true_iff in Hb.
  unfold starts_slot in Hb, Hln. rewrite Hb. simpl. now rewrite Hln.
Qed.


End ListingFacts.

(** ** Numerals: [int] reads what [str] prints *)

Section NumeralFacts.

Lemma lstrip_by_id (p : ascii -> bool) (s : string) :
  all_chars (fun c => negb (p c)) s = true -> Py.lstrip_by p s = s.
Proof.
  destruct s as [|c s]; simpl; [reflexivity|].
  intro H. apply andb_true_iff in H as [Hc _].
  apply negb_true_iff in Hc. now rewrite Hc.
Qed.

Lemma rstrip_by_id (p : ascii -> bool) (s : string) :
  all_chars (fun c => negb (p c)) s = true -> Py.rstrip_by p s = s.
Proof.
  induction s as [|c s IH]; simpl; [reflexivity|].
  intro H. apply andb_true_iff in H as [Hc Hs].
  apply negb_true_iff in Hc. now rewrite Hc, (IH Hs).
Qed.

Lemma strip_id (s : string) :
  all_chars (fun c => negb (Py.is_space c)) s = true -> Py.strip s = s.
Proof.
  intro H. unfold Py.strip. now rewrite (lstrip_by_id _ _ H), (rstrip_by_id _ _ H).
Qed.

(** The characters of a numeral are neither whitespace nor parentheses. *)
Lemma numeral_chars (d : Decimal.uint) :
  all_chars (fun c => negb (Py.is_space c) && is_not "(" c)
            (NilEmpty.string_of_uint d) = true.
Proof. induction d; simpl; auto. Qed.








Lemma nonnil_string (d : Decimal.uint) :
  d <> Decimal.Nil -> NilZero.string_of_uint d = NilEmpty.string_of_uint d.
Proof. destruct d; [contradiction|..]; reflexivity. Qed.


(** What [str] prints is one word without parenthesis. *)
Lemma str_of_int_word (z : Z) :
  Py.str_of_int z <> ""
  /\ all_chars (fun c => negb (Py.is_space c) && is_not "(" c)
               (Py.str_of_int z) = true.
Proof.
  destruct z as [|p|p]; [split; [discriminate | reflexivity]|..];
    unfold Py.str_of_int; cbn [Z.to_int NilZero.string_of_int];
    rewrite (nonnil_string _ (Unsigned.to_uint_nonnil p)).
  - split; [|apply numeral_chars].
    pose proof (Unsigned.to_uint_nonnil p) as H.
    destruct (Pos.to_uint p); [contradiction|..]; discriminate.
  - split; [discriminate|]. cbn [all_chars]. now rewrite numeral_chars.
Qed.

End NumeralFacts.

(** ** Lines *)

Section LineFacts.

Lemma splitlines_nonempty (c : ascii) (s : string) :
  Py.splitlines (String c s) <> [].
Proof.
  cbn [Py.splitlines].
  destruct (Ascii.eqb c Py.CR).
  - destruct s as [|c' s]; [discriminate|].
    destruct (Ascii.eqb c' Py.LF); discriminate.
  - destruct (Py.is_linebreak c); [discriminate|].
    destruct (Py.splitlines s); discriminate.
Qed.

Lemma cons_head_app (c : ascii) (l r : list string) :
  l <> [] -> Py.cons_head c (l ++ r) = (Py.cons_head c l ++ r)%list.
Proof. destruct l; [contradiction | reflexivity]. Qed.

Lemma splitlines_cons (c : ascii) (r : string) :
  Py.splitlines (String c r)
  = if Ascii.eqb c Py.CR then
      match r with
      | EmptyString => [EmptyString]
      | String c' r' =>
          if Ascii.eqb c' Py.LF then EmptyString :: Py.splitlines r'
          else EmptyString :: Py.splitlines r
      end
    else if Py.is_linebreak c then EmptyString :: Py.splitlines r
    else Py.cons_head c (Py.splitlines r).
Proof. reflexivity. Qed.

(** The lines of a text cut at a line feed: those of the two parts, with
    at most one empty line between them. *)
Lemma splitlines_app_nl (t2 : string) :
  forall t1 : string,
  exists extra : list string,
    (extra = [] \/ extra = [""])
    /\ Py.splitlines (t1 ++ String Py.LF t2)
       = (Py.splitlines t1 ++ extra ++ Py.splitlines t2)%list.
Proof.
  induction t1 as [|c|c c' s IHs IHc] using string_pair_ind.
  - exists [""]. split; [now right | reflexivity].
  - change (String c "" ++ String Py.LF t2) with (String c (String Py.LF t2)).
    rewrite !splitlines_cons. cbv beta iota.
    change (Ascii.eqb Py.LF Py.LF) with true. cbv beta iota.
    change (Ascii.eqb Py.LF Py.CR) with false.
    change (Py.is_linebreak Py.LF) with true. cbv beta iota.
    destruct (Ascii.eqb c Py.CR).
    + exists []. split; [now left | reflexivity].
    + destruct (Py.is_linebreak c).
      * exists [""]. split; [now right | reflexivity].
      * exists []. split; [now left | reflexivity].
  - destruct IHs as (e1 & He1 & IH1).
    destruct IHc as (e2 & He2 & IH2).
    change (String c' s ++ String Py.LF t2)
      with (String c' (s ++ String Py.LF t2)) in IH2.
    change (String c (String c' s) ++ String Py.LF t2)
      with (String c (String c' (s ++ String Py.LF t2))).
    rewrite (splitlines_cons c (String c' s)).
    rewrite (splitlines_cons c (String c' (s ++ String Py.LF t2))).
    cbv beta iota.
    destruct (Ascii.eqb c Py.CR).
    + destruct (Ascii.eqb c' Py.LF).
      * exists e1. split; [exact He1|]. now rewrite IH1.
      * exists e2. split; [exact He2|]. now rewrite IH2.
    + destruct (Py.is_linebreak c).
      * exists e2. split; [exact He2|]. now rewrite IH2.
      * exists e2. split; [exact He2|]. rewrite IH2.
        apply cons_head_app. apply splitlines_nonempty.
Qed.

Lemma listing_lines_app_nl (t1 t2 : string) :
  listing_lines (t1 ++ String Py.LF t2)
  = (listing_lines t1 ++ listing_lines t2)%list.
Proof.
  unfold listing_lines.
  destruct (splitlines_app_nl t2 t1) as (extra & [-> | ->] & ->);
    rewrite !filter_app, !map_app; reflexivity.
Qed.

Lemma bytes_to_text_nl (b1 b2 : list Byte.byte) :
  bytes_to_text (b1 ++ Byte.x0a :: b2)
  = bytes_to_text b1 ++ String Py.LF (bytes_to_text b2).
Proof. now rewrite bytes_to_text_app. Qed.

(** Lines put between two parts of a listing do not change what is found
    for slot [i] when none of them starts with its prefix, or when a line
    before them does. *)
Lemma slot_entry_insert (l1 g l2 : list string) (i : nat) :
  forallb (fun ln => negb (starts_slot i ln)) g = true
  \/ existsb (starts_slot i) l1 = true ->
  slot_entry (l1 ++ g ++ l2) i = slot_entry (l1 ++ l2) i.
Proof.
  unfold slot_entry, starts_slot. intro H.
  rewrite !scan_lines_app.
  destruct (existsb (fun ln => Py.startswith ln (slot_prefix i)) l1) eqn:E1;
    [reflexivity|].
  destruct H as [H|H]; [|discriminate H].
  rewrite forallb_negb_existsb in H. apply negb_true_iff in H.
  now rewrite H.
Qed.

End LineFacts.

(** ** The claims on the listing *)

Section ListingClaims.



(** C5, as the code has it (the listing tolerates other lines): lines put
    between two parts of a response change nothing of the entry of a slot
    when none of them starts with the prefix of that slot, or when a line
    before them does; so lines that start with no slot prefix, such as OK,
    change no row at all. A line starts with the prefix of at most one slot,
    so a malformed line changes no entry but that of its own slot; when it
    is the first line with that prefix, the slot reports (empty) with size
    0 whatever follows. [refresh_files] never raises. *)
Theorem listing_tolerates_other_lines :
  (forall (t1 g t2 : string) (i : nat),
      forallb (fun ln => negb (starts_slot i ln)) (listing_lines g) = true
      \/ existsb (starts_slot i) (listing_lines t1) = true ->
      slot_entry (listing_lines (t1 ++ Py.nl ++ g ++ Py.nl ++ t2)) i
      = slot_entry (listing_lines (t1 ++ Py.nl ++ t2)) i)
  /\ (forall b1 g b2 : list Byte.byte,
        (forall i : nat, i < FILE_COUNT ->
           forallb (fun ln => negb (starts_slot i ln))
                   (listing_lines (bytes_to_text g)) = true) ->
        listing_rows (b1 ++ Byte.x0a :: g ++ Byte.x0a :: b2)
        = listing_rows (b1 ++ Byte.x0a :: b2))
  /\ listing_entries
       (bytes_of ("1: notes (12 bytes)" ++ Py.nl ++ "OK" ++ Py.nl
                    ++ "3: todo (5 bytes)"))
     = [(1, "notes", 12); (2, "(empty)", 0); (3, "todo", 5)]%Z
  /\ (forall (ln : string) (i j : nat),
        i < FILE_COUNT -> j < FILE_COUNT ->
        starts_slot i ln = true -> starts_slot j ln = true -> i = j)
  /\ (forall (before after : list string) (ln : string) (i : nat) (e : exn),
        forallb (fun l => negb (starts_slot i l)) before = true ->
        starts_slot i ln = true ->
        parse_line ln = Raise e ->
        slot_entry (before ++ ln :: after) i = ("(empty)", 0%Z))
  /\ (forall st : App, returns_normally (refresh_files st) = true).
Proof.
  split.
  { intros t1 g t2 i H.
    change (t1 ++ Py.nl ++ g ++ Py.nl ++ t2)
      with (t1 ++ String Py.LF (g ++ String Py.LF t2)).
    change (t1 ++ Py.nl ++ t2) with (t1 ++ String Py.LF t2).
    rewrite !listing_lines_app_nl. now apply slot_entry_insert. }
  split.
  { intros b1 g b2 H. unfold listing_rows.
    rewrite !bytes_to_text_nl, !listing_lines_app_nl.
    apply map_ext_in. intros i Hi. apply in_seq in Hi.
    unfold slot_row. rewrite slot_entry_insert; [reflexivity|].
    left. apply H. lia. }
  split; [reflexivity|].
  split.
  { unfold FILE_COUNT, starts_slot. intros ln i j Hi Hj.
    destruct ln as [|a ln]; [destruct i as [|[|[|i]]]; discriminate || lia|].
    destruct i as [|[|[|i]]]; [| | |lia];
      (destruct j as [|[|[|j]]]; [| | |lia]); try reflexivity;
      cbn [slot_prefix Py.startswith]; intros H1 H2;
      apply andb_true_iff in H1 as [H1 _]; apply andb_true_iff in H2 as [H2 _];
      apply Ascii.eqb_eq in H1, H2; subst a; discriminate H2. }
  split.
  { intros before after ln i e Hb Hln Hparse.
    now rewrite (slot_entry_first before after ln i Hb Hln), Hparse. }
  intro st. destruct (is_open (client st)) eqn:Hopen.
  - now rewrite refresh_files_open.
  - now rewrite refresh_files_closed.
Qed.

(** The line OK between two entries, as text and as bytes. *)
Lemma listing_tolerates_other_lines_witness :
  slot_entry
    (listing_lines ("1: notes (12 bytes)" ++ Py.nl ++ "OK" ++ Py.nl
                      ++ "3: todo (5 bytes)")) 2
  = slot_entry
      (listing_lines ("1: notes (12 bytes)" ++ Py.nl ++ "3: todo (5 bytes)")) 2.
Proof.
  exact (proj1 listing_tolerates_other_lines
           "1: notes (12 bytes)" "OK" "3: todo (5 bytes)" 2
           (or_introl eq_refl)).
Defined.

(** C5, as stated, fails: a malformed line that starts with 1: and stands
    between valid entries hides the valid entry of slot 1 that follows
    it. *)
Lemma malformed_line_hides_valid_entry :
  listing_entries
    (bytes_of ("3: c (1 bytes)" ++ Py.nl ++ "1: junk" ++ Py.nl
                 ++ "1: notes (12 bytes)"))
  = [(1, "(empty)", 0); (2, "(empty)", 0); (3, "c", 1)]%Z
  /\ listing_entries
       (bytes_of ("3: c (1 bytes)" ++ Py.nl ++ "1: notes (12 bytes)"))
     = [(1, "notes", 12); (2, "(empty)", 0); (3, "c", 1)]%Z
  /\ nth_error
       (listing_entries
          (bytes_of ("3: c (1 bytes)" ++ Py.nl ++ "1: junk" ++ Py.nl
                       ++ "1: notes (12 bytes)"))) 0
     <> Some (1, "notes", 12)%Z.
Proof. repeat split. discriminate. Qed.

End ListingClaims.

(** * Further properties of the client *)

(** ** More on escaping *)

Section EscapeMore.

Lemma escape_app (a b : string) :
  escape_for_arduino (a ++ b) = escape_for_arduino a ++ escape_for_arduino b.
Proof.
  induction a as [|c a IH]; [reflexivity|].
  change (String c a ++ b) with (String c (a ++ b)).
  now rewrite !escape_cons, IH, append_assoc.
Qed.

Lemma escape_char_safe (c : ascii) :
  all_chars (fun x => is_not Py.LF x && is_not Py.CR x) (escape_char c) = true.
Proof.
  unfold escape_char.
  destruct (Ascii.eqb_spec c Py.BACKSLASH) as [->|Hb]; [reflexivity|].
  destruct (Ascii.eqb_spec c Py.LF) as [->|Hn]; [reflexivity|].
  destruct (Ascii.eqb_spec c Py.CR) as [->|Hr]; [reflexivity|].
  apply Ascii.eqb_neq in Hn, Hr. cbn [all_chars]. unfold is_not.
  now rewrite Hn, Hr.
Qed.

Lemma escape_safe (s : string) :
  all_chars (fun x => is_not Py.LF x && is_not Py.CR x) (escape_for_arduino s)
  = true.
Proof.
  induction s as [|c s IH]; [reflexivity|].
  now rewrite escape_cons, all_chars_app, escape_char_safe, IH.
Qed.

Lemma escape_char_length (c : ascii) :
  String.length (escape_char c) = if is_escaped c then 2 else 1.
Proof.
  unfold escape_char, is_escaped.
  destruct (Ascii.eqb c Py.BACKSLASH); [reflexivity|].
  destruct (Ascii.eqb c Py.LF); [reflexivity|].
  destruct (Ascii.eqb c Py.CR); reflexivity.
Qed.

(** X4 (the escaped text is one line): the text that [escape_for_arduino]
    returns holds no line feed and no carriage return, and it is longer
    than the text given by one character for each backslash, line feed and
    carriage return in it. *)
Theorem escape_has_no_line_break :
  forall s : string,
    all_chars (fun x => is_not Py.LF x && is_not Py.CR x) (escape_for_arduino s)
    = true
    /\ String.length (escape_for_arduino s)
       = String.length s + String.length (filter_chars is_escaped s).
Proof.
  intro s. split; [apply escape_safe|].
  induction s as [|c s IH]; [reflexivity|].
  rewrite escape_cons, length_app, escape_char_length, IH.
  cbn [filter_chars String.length]. destruct (is_escaped c); cbn [String.length]; lia.
Qed.

(** X6 (escaping loses nothing): two texts with the same escaped form are
    the same text. *)
Theorem escape_injective (s1 s2 : string) :
  escape_for_arduino s1 = escape_for_arduino s2 -> s1 = s2.
Proof.
  intro H. rewrite <- (unescape_escape s1), <- (unescape_escape s2).
  now rewrite H.
Qed.

Lemma escape_injective_witness :
  escape_for_arduino ("a" ++ Py.nl) = escape_for_arduino ("a" ++ Py.nl)
  /\ "a" ++ Py.nl = "a" ++ Py.nl.
Proof.
  split; [reflexivity|].
  apply (escape_injective ("a" ++ Py.nl) ("a" ++ Py.nl)). reflexivity.
Defined.

Lemma scan_plain (s : string) :
  all_chars (is_not Py.BACKSLASH) s = true -> unescape_scan s = s.
Proof.
  induction s as [|c s IH]; [reflexivity|]. cbn [all_chars unescape_scan].
  intro H. apply andb_true_iff in H as [Hc Hs]. unfold is_not in Hc.
  apply negb_true_iff in Hc. now rewrite Hc, (IH Hs).
Qed.

Lemma scan_length (s : string) :
  String.length (unescape_scan s) <= String.length s
  /\ String.length s <= 2 * String.length (unescape_scan s).
Proof.
  induction s as [|c|c c' s IHs IHc] using string_pair_ind.
  - split; simpl; lia.
  - cbn [unescape_scan]. destruct (Ascii.eqb c Py.BACKSLASH); simpl; lia.
  - cbn [unescape_scan] in *. destruct (Ascii.eqb c Py.BACKSLASH).
    + cbn [String.length]. lia.
    + cbn [String.length] in *. lia.
Qed.

(** X7 (unescaping plain text): a text without backslash is returned as it
    is; and whatever the text, the result is never longer than the text
    and never shorter than half of it. *)
Theorem unescape_plain_and_length :
  (forall s : string,
      all_chars (is_not Py.BACKSLASH) s = true -> unescape_from_arduino s = s)
  /\ (forall s : string,
        String.length (unescape_from_arduino s) <= String.length s
        /\ String.length s <= 2 * String.length (unescape_from_arduino s)).
Proof.
  split.
  - intros s H. rewrite unescape_is_scan. now apply scan_plain.
  - intro s. rewrite unescape_is_scan. apply scan_length.
Qed.

Lemma unescape_plain_and_length_witness :
  unescape_from_arduino "1: notes (12 bytes)" = "1: notes (12 bytes)".
Proof.
  apply (proj1 unescape_plain_and_length). reflexivity.
Defined.

End EscapeMore.

(** ** From the text to the wire and back *)

Section EchoFacts.

Lemma encode_utf8_app (a b : string) :
  Py.encode_utf8 (a ++ b) = (Py.encode_utf8 a ++ Py.encode_utf8 b)%list.
Proof.
  induction a as [|c a IH]; [reflexivity|].
  cbn [append Py.encode_utf8]. now rewrite IH, app_assoc.
Qed.

(** One character, escaped, encoded and passed through the filter. *)
Lemma echo_char (c : ascii) :
  bytes_to_text (Py.encode_utf8 (escape_char c))
  = if survives c then escape_char c else "".
Proof.
  destruct c as [[|] [|] [|] [|] [|] [|] [|] [|]]; vm_compute; reflexivity.
Qed.

Lemma echo_escape (s : string) :
  bytes_to_text (Py.encode_utf8 (escape_for_arduino s))
  = escape_for_arduino (filter_chars survives s).
Proof.
  induction s as [|c s IH]; [reflexivity|].
  rewrite escape_cons, encode_utf8_app, bytes_to_text_app, echo_char, IH.
  cbn [filter_chars]. destruct (survives c); [now rewrite escape_cons | reflexivity].
Qed.

Lemma filter_chars_all (p : ascii -> bool) (s : string) :
  all_chars p s = true -> filter_chars p s = s.
Proof.
  induction s as [|c s IH]; [reflexivity|]. cbn [all_chars filter_chars].
  intro H. apply andb_true_iff in H as [Hc Hs]. now rewrite Hc, (IH Hs).
Qed.

(** X8 (write, echo, read): when the bytes sent for an escaped text come
    back as they are, the text read is the text written without the
    characters that are neither printable nor line feed nor carriage
    return; a text made of such characters only comes back whole. *)
Theorem echo_round_trip :
  (forall s : string,
      unescape_from_arduino
        (bytes_to_text (Py.encode_utf8 (escape_for_arduino s)))
      = filter_chars survives s)
  /\ (forall s : string,
        all_chars survives s = true ->
        unescape_from_arduino
          (bytes_to_text (Py.encode_utf8 (escape_for_arduino s)))
        = s).
Proof.
  assert (H : forall s,
             unescape_from_arduino
               (bytes_to_text (Py.encode_utf8 (escape_for_arduino s)))
             = filter_chars survives s).
  { intro s. now rewrite echo_escape, unescape_escape. }
  split; [exact H|].
  intros s Hs. now rewrite H, filter_chars_all.
Qed.

Lemma echo_round_trip_witness :
  unescape_from_arduino
    (bytes_to_text
       (Py.encode_utf8 (escape_for_arduino ("a\b" ++ Py.nl ++ "c"))))
  = "a\b" ++ Py.nl ++ "c".
Proof.
  apply (proj2 echo_round_trip). reflexivity.
Defined.

Lemma bytes_to_text_dropped (a b : list Byte.byte) (x : Byte.byte) :
  keeps x = false -> bytes_to_text (a ++ x :: b) = bytes_to_text (a ++ b).
Proof.
  intro H. rewrite !bytes_to_text_app. cbn [bytes_to_text]. now rewrite H.
Qed.

(** X9 (dropped bytes do not count): a byte that the filter drops, such as
    the carriage return of a line ending, changes nothing wherever it
    stands in a response: neither the text, nor the listing read from it,
    nor the text put into the editor. *)
Theorem dropped_byte_changes_nothing
  (a b : list Byte.byte) (x : Byte.byte) :
  keeps x = false ->
  bytes_to_text (a ++ x :: b) = bytes_to_text (a ++ b)
  /\ listing_rows (a ++ x :: b) = listing_rows (a ++ b)
  /\ unescape_from_arduino (bytes_to_text (a ++ x :: b))
     = unescape_from_arduino (bytes_to_text (a ++ b)).
Proof.
  intro H. unfold listing_rows. now rewrite (bytes_to_text_dropped a b x H).
Qed.

Lemma dropped_byte_changes_nothing_witness :
  listing_rows (bytes_of "1: notes (12 bytes)" ++ Byte.x0d :: [Byte.x0a])
  = listing_rows (bytes_of "1: notes (12 bytes)" ++ [Byte.x0a]).
Proof.
  exact (proj1 (proj2 (dropped_byte_changes_nothing
                         (bytes_of "1: notes (12 bytes)") [Byte.x0a] Byte.x0d
                         eq_refl))).
Defined.

End EchoFacts.

(** ** What is stripped and what is not *)

Section StripMore.

Variable p : ascii -> bool.

(** [rstrip] cuts a tail of characters to strip, and nothing else. *)
Lemma rstrip_by_tail (s : string) :
  exists tail : string,
    s = Py.rstrip_by p s ++ tail /\ all_chars p tail = true.
Proof.
  induction s as [|c s (tail & Hs & Htail)]; [exists ""; split; reflexivity|].
  cbn [Py.rstrip_by].
  destruct (p c && Py.is_empty (Py.rstrip_by p s)) eqn:Hcond.
  - apply andb_true_iff in Hcond as [Hc Hempty].
    exists (String c tail). split.
    + destruct (Py.rstrip_by p s); [|discriminate Hempty].
      simpl in Hs. now rewrite <- Hs.
    + cbn [all_chars]. now rewrite Hc, Htail.
  - exists tail. split; [|exact Htail]. cbn [append]. now rewrite <- Hs.
Qed.

(** A text that ends in a character not to strip is left whole. *)
Lemma rstrip_by_kept (s : string) (c : ascii) :
  p c = false -> Py.rstrip_by p (s ++ String c "") = s ++ String c "".
Proof.
  intro Hc. induction s as [|x s IH]; cbn [append Py.rstrip_by].
  - now rewrite Hc.
  - rewrite IH. destruct s; cbn [append Py.is_empty]; now rewrite andb_false_r.
Qed.

Lemma lstrip_by_head (s : string) :
  match Py.lstrip_by p s with
  | EmptyString => True
  | String c _ => p c = false
  end.
Proof.
  induction s as [|c s IH]; cbn [Py.lstrip_by]; [exact I|].
  destruct (p c) eqn:Hc; [exact IH | exact Hc].
Qed.

Lemma rstrip_by_idempotent (s : string) :
  Py.rstrip_by p (Py.rstrip_by p s) = Py.rstrip_by p s.
Proof.
  induction s as [|c s IH]; [reflexivity|]. cbn [Py.rstrip_by].
  destruct (p c && Py.is_empty (Py.rstrip_by p s)) eqn:Hcond; [reflexivity|].
  cbn [Py.rstrip_by]. now rewrite IH, Hcond.
Qed.

Lemma rstrip_by_keeps_head (s : string) :
  match s with
  | EmptyString => True
  | String c _ =>
      p c = false ->
      match Py.rstrip_by p s with
      | EmptyString => False
      | String c' _ => c' = c
      end
  end.
Proof.
  destruct s as [|c s]; [exact I|]. intro Hc. cbn [Py.rstrip_by].
  now rewrite Hc.
Qed.

End StripMore.

Section StripNames.

Lemma strip_idempotent (s : string) : Py.strip (Py.strip s) = Py.strip s.
Proof.
  unfold Py.strip.
  pose proof (lstrip_by_head Py.is_space s) as Hhead.
  pose proof (rstrip_by_keeps_head Py.is_space (Py.lstrip_by Py.is_space s)) as Hkeep.
  destruct (Py.lstrip_by Py.is_space s) as [|c r] eqn:El; [reflexivity|].
  specialize (Hkeep Hhead).
  destruct (Py.rstrip_by Py.is_space (String c r)) as [|c' r'] eqn:Er;
    [contradiction|].
  subst c'. cbn [Py.lstrip_by]. rewrite Hhead.
  rewrite <- Er. apply rstrip_by_idempotent.
Qed.

Lemma parse_line_name (ln name : string) (size : Z) :
  parse_line ln = Ok (name, size) -> Py.strip name = name.
Proof.
  unfold parse_line, rbind.
  destruct (Py.getitem (Py.split_max ":" ln 1) 1) as [after|]; [|discriminate].
  destruct (Py.getitem (Py.split_on "(" after) 0) as [before|]; [|discriminate].
  destruct (Py.getitem (Py.split_on "(" ln) 1) as [inside|]; [|discriminate].
  destruct (Py.getitem (Py.split_ws inside) 0) as [word|]; [|discriminate].
  destruct (Py.int word) as [s|]; [|discriminate].
  intros [= <- _]. apply strip_idempotent.
Qed.

Lemma scan_lines_name (pfx : string) (lines : list string) (label : string) (size : Z) :
  Py.strip label = label ->
  Py.strip (fst (scan_lines pfx lines label size)) = fst (scan_lines pfx lines label size).
Proof.
  intro Hlabel. induction lines as [|ln lines IH]; cbn [scan_lines]; [exact Hlabel|].
  destruct (Py.startswith ln pfx); [|exact IH].
  destruct (parse_line ln) as [[name s]|e] eqn:Hparse; cbn [fst];
    [exact (parse_line_name ln name s Hparse) | exact Hlabel].
Qed.

(** X20 (names come stripped): whatever the device answers, no name in the
    rows of the listing starts or ends with whitespace: stripping a name
    again changes nothing. *)
Theorem listing_names_are_stripped (raw : list Byte.byte) (r : Row) :
  In r (listing_rows raw) -> Py.strip (name_col r) = name_col r.
Proof.
  unfold listing_rows. intro Hin. apply in_map_iff in Hin as (i & <- & _).
  unfold slot_row.
  pose proof (scan_lines_name (slot_prefix i)
                (listing_lines (bytes_to_text raw)) "(empty)" 0 eq_refl) as H.
  fold (slot_entry (listing_lines (bytes_to_text raw)) i) in H.
  destruct (slot_entry (listing_lines (bytes_to_text raw)) i) as [label size].
  exact H.
Qed.

Lemma listing_names_are_stripped_witness :
  Py.strip "notes" = "notes".
Proof.
  exact (listing_names_are_stripped
           (bytes_of "1:   notes   (12 bytes)") (mkRow "1" "notes" "12 B")
           (or_introl eq_refl)).
Defined.

(** X19 (only trailing line feeds are cut): the text that [write_selected]
    escapes is the text of the editor without a tail made of line feeds
    only; a text that ends in any other character, a space or a carriage
    return for instance, is escaped whole. *)
Theorem write_cuts_only_line_feeds :
  (forall (idx : Z) (got : string),
      exists tail : string,
        got = Py.rstrip_char Py.LF got ++ tail
        /\ all_chars (Ascii.eqb Py.LF) tail = true
        /\ write_command idx got
           = "WRITE " ++ Py.str_of_int idx ++ " "
               ++ escape_for_arduino (Py.rstrip_char Py.LF got))
  /\ (forall (idx : Z) (s : string) (c : ascii),
        c <> Py.LF ->
        write_command idx (s ++ String c "")
        = "WRITE " ++ Py.str_of_int idx ++ " "
            ++ escape_for_arduino (s ++ String c "")).
Proof.
  split.
  - intros idx got.
    destruct (rstrip_by_tail (Ascii.eqb Py.LF) got) as (tail & Hgot & Htail).
    exists tail. repeat split; assumption.
  - intros idx s c Hc. unfold write_command, Py.rstrip_char.
    rewrite rstrip_by_kept; [reflexivity|].
    apply Ascii.eqb_neq. congruence.
Qed.

Lemma write_cuts_only_line_feeds_witness :
  write_command 2%Z ("ab " ++ String Py.CR "") = "WRITE 2 ab \r".
Proof.
  exact (proj2 write_cuts_only_line_feeds 2%Z "ab " Py.CR ltac:(discriminate)).
Defined.

End StripNames.

(** ** Rows and their slots *)

Section RowIndex.

Lemma listing_rows_nth (raw : list Byte.byte) (i : nat) (r : Row) :
  nth_error (listing_rows raw) i = Some r ->
  i < FILE_COUNT /\ iid r = Py.str_of_int (Z.of_nat i + 1).
Proof.
  unfold listing_rows. intro H.
  rewrite nth_error_map in H.
  destruct (nth_error (seq 0 FILE_COUNT) i) as [k|] eqn:Hk; [|discriminate H].
  assert (Hi : i < FILE_COUNT).
  { rewrite <- (length_seq FILE_COUNT 0). apply nth_error_Some. congruence. }
  rewrite (nth_error_nth' _ 0) in Hk by (now rewrite length_seq).
  rewrite seq_nth in Hk by exact Hi. injection Hk as <-.
  cbn [option_map] in H. injection H as <-. split; [exact Hi|].
  unfold slot_row. cbn [Nat.add].
  destruct (slot_entry (listing_lines (bytes_to_text raw)) i). reflexivity.
Qed.

(** X18 (a row gives back its slot): the item of the row at position [i]
    of a listing is read back by [_get_selected_index] as the slot number
    [i + 1], whatever the state of the window it is selected in. *)
Theorem selected_row_gives_slot
  (raw : list Byte.byte) (i : nat) (r : Row) (st : App) :
  nth_error (listing_rows raw) i = Some r ->
  selection (gui st) = Some (iid r) ->
  _get_selected_index st = Done (Some (Z.of_nat i + 1)%Z) st.
Proof.
  intros Hrow Hsel. destruct (listing_rows_nth raw i r Hrow) as [Hi Hiid].
  apply (get_selected_index_some st (iid r)); [exact Hsel|].
  rewrite Hiid. unfold FILE_COUNT in Hi.
  destruct i as [|[|[|i]]]; [reflexivity | reflexivity | reflexivity | lia].
Qed.

Lemma selected_row_gives_slot_witness :
  _get_selected_index connected_app = Done (Some 2%Z) connected_app.
Proof.
  exact (selected_row_gives_slot sample_listing 1 (mkRow "2" "(empty)" "0 B")
           connected_app eq_refl eq_refl).
Defined.

End RowIndex.

(** ** The bytes of a command *)

Section Framing.

Lemma utf8_char_line_feed (c : ascii) :
  In Byte.x0a (Py.utf8_char c) <-> c = Py.LF.
Proof.
  destruct c as [[|] [|] [|] [|] [|] [|] [|] [|]]; vm_compute;
    (split; intro H;
     [ try reflexivity; exfalso;
       repeat (destruct H as [H|H]; [discriminate H|]); exact H
     | try discriminate H; left; reflexivity ]).
Qed.

Lemma encode_utf8_line_feed (s : string) :
  ~ In Byte.x0a (Py.encode_utf8 s) <-> all_chars (is_not Py.LF) s = true.
Proof.
  induction s as [|c s IH]; cbn [Py.encode_utf8 all_chars].
  - split; [reflexivity | intros _ []].
  - rewrite in_app_iff, andb_true_iff, <- IH, utf8_char_line_feed.
    unfold is_not. rewrite negb_true_iff, Ascii.eqb_neq. tauto.
Qed.

Lemma wire_snoc (line : string) :
  wire line = (Py.encode_utf8 line ++ [Byte.x0a])%list.
Proof. unfold wire. now rewrite encode_utf8_app. Qed.

Lemma one_line_wire (line : string) :
  one_line (wire line) <-> all_chars (is_not Py.LF) line = true.
Proof.
  rewrite wire_snoc, <- encode_utf8_line_feed. unfold one_line. split.
  - intros (body & Heq & Hbody). apply app_inj_tail in Heq as [-> _]. exact Hbody.
  - intro H. exists (Py.encode_utf8 line). split; [reflexivity | exact H].
Qed.

Lemma str_of_int_no_line_feed (z : Z) :
  all_chars (is_not Py.LF) (Py.str_of_int z) = true.
Proof.
  generalize (proj2 (str_of_int_word z)). apply all_chars_weaken.
  intros c H. apply andb_true_iff in H as [H _]. unfold is_not.
  destruct (Ascii.eqb_spec c Py.LF) as [->|]; [discriminate H | reflexivity].
Qed.

Lemma escape_no_line_feed (s : string) :
  all_chars (is_not Py.LF) (escape_for_arduino s) = true.
Proof.
  generalize (escape_safe s). apply all_chars_weaken.
  intros c H. now apply andb_true_iff in H as [H _].
Qed.

(** X5 (a command is one line): the bytes written for LIST, READ, WRITE
    and DELETE end in a line feed and hold no other line feed, whatever the
    slot and the text. The name of WRITE_NAME is sent as it is, so its
    bytes make one line exactly when the name holds no line feed. *)
Theorem command_is_one_line (c : command) :
  one_line (wire (command_line c))
  <-> match c with
      | CWriteName _ name => all_chars (is_not Py.LF) name = true
      | _ => True
      end.
Proof.
  rewrite one_line_wire.
  destruct c as [|idx|idx text|idx name|idx]; cbn [command_line];
    rewrite ?all_chars_app, ?str_of_int_no_line_feed, ?escape_no_line_feed;
    cbn; tauto.
Qed.

Lemma command_is_one_line_witness :
  one_line (wire (write_command 2%Z ("a\b" ++ Py.nl ++ "c" ++ Py.nl))).
Proof.
  exact (proj2 (command_is_one_line
                  (CWrite 2%Z (Py.rstrip_char Py.LF ("a\b" ++ Py.nl ++ "c" ++ Py.nl))))
               I).
Defined.

End Framing.

(** ** One exchange, closing and failing to open *)

Section ClientMore.

Lemma bytes_read_poll_events (polls : list (list Byte.byte)) :
  bytes_read (poll_events polls) = concat polls.
Proof.
  induction polls as [|[|x avail] rest IH]; cbn; [reflexivity | exact IH|].
  now rewrite IH.
Qed.

Lemma poll_events_kind (polls : list (list Byte.byte)) :
  Forall (fun e => e = EvSleep 10 \/ exists d, d <> [] /\ e = EvRead d)
         (poll_events polls).
Proof.
  induction polls as [|[|x avail] rest IH]; cbn; constructor; auto.
  right. exists (x :: avail). split; [discriminate | reflexivity].
Qed.

Lemma concat_all_nil {A} (l : list (list A)) :
  Forall (fun x => x = []) l -> concat l = [].
Proof.
  induction 1 as [|x l Hx _ IH]; [reflexivity|]. subst x. exact IH.
Qed.

(** X3 (one exchange): with an open connection [send_line] clears the
    input, writes the line and a line feed, and then only reads and
    sleeps; it returns the bytes it has read, in the order read, and the
    empty byte string when no poll finds anything. The client and the
    window are left as they were. *)
Theorem send_line_exchange (line : string) (st : App) :
  is_open (client st) = true ->
  exists (buf : list Byte.byte) (st' : App) (evs : list event),
    send_line line st = Done buf st'
    /\ client st' = client st
    /\ gui st' = gui st
    /\ trace (world st')
       = (trace (world st)
            ++ EvResetInput
            :: EvWrite (Py.encode_utf8 line ++ [Byte.x0a])
            :: evs)%list
    /\ Forall (fun e => e = EvSleep 10 \/ exists d, d <> [] /\ e = EvRead d) evs
    /\ buf = bytes_read evs
    /\ (Forall (fun avail => avail = []) (window st) -> buf = []).
Proof.
  intro Hopen.
  exists (reply st), (after_exchange line st), (poll_events (window st)).
  split; [now apply send_line_open|].
  split; [reflexivity|]. split; [reflexivity|].
  split; [unfold after_exchange; cbn; now rewrite wire_snoc|].
  split; [apply poll_events_kind|].
  split; [unfold reply; now rewrite bytes_read_poll_events|].
  apply concat_all_nil.
Qed.

Lemma send_line_exchange_witness :
  exists (buf : list Byte.byte) (st' : App) (evs : list event),
    send_line "LIST" connected_app = Done buf st'
    /\ client st' = client connected_app
    /\ gui st' = gui connected_app
    /\ trace (world st')
       = (trace (world connected_app)
            ++ EvResetInput
            :: EvWrite (Py.encode_utf8 "LIST" ++ [Byte.x0a])
            :: evs)%list
    /\ Forall (fun e => e = EvSleep 10 \/ exists d, d <> [] /\ e = EvRead d) evs
    /\ buf = bytes_read evs
    /\ (Forall (fun avail => avail = []) (window connected_app) -> buf = []).
Proof.
  exact (send_line_exchange "LIST" connected_app eq_refl).
Defined.

(** X1 (closing): [close] never raises and leaves the client without
    connection; it closes the port when the connection was open and
    touches nothing otherwise, so closing again adds nothing. *)
Theorem close_leaves_no_connection (st : App) :
  exists st' : App,
    close st = Done tt st'
    /\ ser (client st') = None
    /\ is_open (client st') = false
    /\ gui st' = gui st
    /\ trace (world st')
       = (trace (world st) ++ if is_open (client st) then [EvClose] else [])%list
    /\ close st' = Done tt st'.
Proof.
  destruct st as [[p b t o] g [tr inc co]].
  unfold close, bind, get, log, modify, ret, is_open.
  destruct o as [[sp sb stm [|]]|]; cbn;
    eexists; (split; [reflexivity|]); cbn; rewrite ?app_nil_r; repeat split.
Qed.

(** X2 (a port that does not open): [connect] raises, after it has closed
    the connection it had: the client is left without connection, nothing
    is opened, no delay is waited and no input is cleared. *)
Theorem connect_failure_drops_connection (st : App) :
  can_open (world st) (port (client st)) = false ->
  exists st' : App,
    connect st = Fail SerialException st'
    /\ ser (client st') = None
    /\ gui st' = gui st
    /\ trace (world st')
       = (trace (world st) ++ if is_open (client st) then [EvClose] else [])%list.
Proof.
  destruct st as [[p b t o] g [tr inc co]]. cbn [world client can_open port].
  intro Hcan.
  unfold connect, close, Serial_new, sleep, log, modify, bind, get, ret, raise,
    is_open.
  cbn [client ser].
  destruct o as [[sp sb stm [|]]|]; cbn; rewrite Hcan;
    eexists; (split; [reflexivity|]); cbn; rewrite ?app_nil_r; repeat split.
Qed.

Lemma connect_failure_drops_connection_witness :
  exists st' : App,
    connect (with_world (mkWorld [] [] (fun _ => false)) connected_app)
    = Fail SerialException st'
    /\ ser (client st') = None
    /\ gui st' = gui connected_app
    /\ trace (world st') = [EvClose].
Proof.
  exact (connect_failure_drops_connection
           (with_world (mkWorld [] [] (fun _ => false)) connected_app) eq_refl).
Defined.

End ClientMore.

(** ** The file operations with an open connection *)

Section OperationsMore.

(** X10 (reading a file): with an open connection and slot [idx] selected,
    [read_selected] sends READ and the index, nothing else, and puts the
    unescaped text of the reply into the editor; the label shows the index
    and the name of the row, or the index alone when the tree has no such
    row. The listing is not read again: rows and selection stay. *)
Theorem read_selected_fills_editor
  (st : App) (item : string) (idx : Z) :
  is_open (client st) = true ->
  selection (gui st) = Some item ->
  Py.int item = Ok idx ->
  exists st' : App,
    read_selected st = Done tt st'
    /\ editor (gui st') = unescape_from_arduino (bytes_to_text (reply st))
    /\ filename_label (gui st')
       = match find (fun r => String.eqb (iid r) (Py.str_of_int idx))
                    (tree (gui st)) with
         | Some r => Py.str_of_int idx ++ ": " ++ name_col r
         | None => Py.str_of_int idx
         end
    /\ tree (gui st') = tree (gui st)
    /\ selection (gui st') = selection (gui st)
    /\ client st' = client st
    /\ written (trace (world st'))
       = (written (trace (world st)) ++ [wire ("READ " ++ Py.str_of_int idx)])%list.
Proof.
  intros Hopen Hsel Hidx. unfold read_selected, bind, get.
  rewrite (get_selected_index_some st item idx Hsel Hidx), Hopen. cbn [negb].
  rewrite send_line_open by exact Hopen.
  unfold try_except, tree_set_name, bind, get, modify, raise, ret.
  cbn [gui with_gui after_exchange with_world set_editor tree].
  destruct (find _ (tree (gui st))) as [r|];
    (eexists; split; [reflexivity|]);
    cbn [gui with_gui set_filename_label set_editor editor filename_label tree
         selection client world];
    repeat split; apply (written_after_exchange _ st).
Qed.

Lemma read_selected_fills_editor_witness :
  exists st' : App,
    read_selected connected_app = Done tt st'
    /\ editor (gui st')
       = "1: notes (12 bytes)" ++ Py.nl ++ "2: (empty)" ++ Py.nl
           ++ "3: todo (5 bytes)"
    /\ filename_label (gui st') = "2: (empty)".
Proof.
  destruct (read_selected_fills_editor connected_app "2" 2%Z
              eq_refl eq_refl eq_refl) as (st' & Hrun & Hed & Hlab & _).
  exists st'. split; [exact Hrun|]. split; [|exact Hlab].
  rewrite Hed. vm_compute. reflexivity.
Defined.

(** X11 (deleting a file): with an open connection and slot [idx]
    selected, a refusal in the dialog changes nothing; a confirmation
    sends DELETE and the index, empties the editor, sets the status and
    reads the listing again from the next reply. *)
Theorem delete_selected_asks_first
  (st : App) (item : string) (idx : Z) :
  is_open (client st) = true ->
  selection (gui st) = Some item ->
  Py.int item = Ok idx ->
  delete_selected false st = Done tt st
  /\ exists st' : App,
       delete_selected true st = Done tt st'
       /\ editor (gui st') = ""
       /\ status_lbl (gui st') = "Deleted file " ++ Py.str_of_int idx
       /\ tree (gui st')
          = listing_rows
              (reply (after_exchange ("DELETE " ++ Py.str_of_int idx) st))
       /\ selection (gui st') = None
       /\ written (trace (world st'))
          = (written (trace (world st))
               ++ [wire ("DELETE " ++ Py.str_of_int idx); wire "LIST"])%list.
Proof.
  intros Hopen Hsel Hidx. unfold delete_selected, bind, get.
  rewrite (get_selected_index_some st item idx Hsel Hidx), Hopen. cbn [negb].
  split; [reflexivity|].
  rewrite send_line_open by exact Hopen.
  unfold _set_status, modify.
  rewrite refresh_files_open by exact Hopen.
  eexists. split; [reflexivity|].
  split; [reflexivity|]. split; [reflexivity|]. split; [reflexivity|].
  split; [reflexivity|].
  rewrite written_after_refresh. cbn [world with_world with_gui trace].
  rewrite written_after_exchange. now rewrite <- app_assoc.
Qed.

Lemma delete_selected_asks_first_witness :
  delete_selected false connected_app = Done tt connected_app.
Proof.
  exact (proj1 (delete_selected_asks_first connected_app "2" 2%Z
                  eq_refl eq_refl eq_refl)).
Defined.

(** Reading the selected index changes nothing, also when it raises. *)
Lemma get_selected_index_state (st : App) :
  (exists o, _get_selected_index st = Done o st)
  \/ (exists e, _get_selected_index st = Fail e st).
Proof.
  unfold _get_selected_index, bind, get, lift_result, ret, raise.
  destruct (selection (gui st)) as [item|]; [|left; now exists None].
  destruct (Py.int item) as [idx|e]; [left; now exists (Some idx) | right; now exists e].
Qed.

(** The file operations of the window never touch the client. *)
Lemma file_ops_keep_client (st : App) :
  client (final_state (refresh_files st)) = client st
  /\ client (final_state (read_selected st)) = client st
  /\ client (final_state (write_selected st)) = client st
  /\ (forall answer, client (final_state (rename_selected answer st)) = client st)
  /\ (forall yes, client (final_state (delete_selected yes st)) = client st).
Proof.
  assert (Hrefresh : forall s, client (final_state (refresh_files s)) = client s).
  { intro s. destruct (is_open (client s)) eqn:Hopen.
    - now rewrite refresh_files_open.
    - now rewrite refresh_files_closed. }
  split; [apply Hrefresh|].
  unfold read_selected, write_selected, rename_selected, delete_selected, bind, get.
  destruct (get_selected_index_state st) as [[o ->]|[e ->]];
    [|repeat split].
  destruct o as [idx|]; [|repeat split].
  destruct (is_open (client st)) eqn:Hopen; [|repeat split]. cbn [negb].
  split; [|split; [|split]].
  - rewrite send_line_open by exact Hopen.
    unfold try_except, tree_set_name, bind, get, modify, raise, ret.
    cbn [gui with_gui after_exchange with_world set_editor tree].
    destruct (find _ (tree (gui st))); reflexivity.
  - rewrite send_line_open by exact Hopen.
    unfold sleep, log, _set_status, modify.
    match goal with
    | |- context [refresh_files ?s] => rewrite (Hrefresh s)
    end.
    reflexivity.
  - intros [newname|]; [|reflexivity].
    destruct (Py.truthy newname); [|reflexivity]. cbn [negb].
    rewrite send_line_open by exact Hopen.
    unfold sleep, log, _set_status, modify.
    match goal with
    | |- context [refresh_files ?s] => rewrite (Hrefresh s)
    end.
    reflexivity.
  - intros [|]; [|reflexivity]. cbn [negb].
    rewrite send_line_open by exact Hopen.
    unfold _set_status, modify.
    match goal with
    | |- context [refresh_files ?s] => rewrite (Hrefresh s)
    end.
    reflexivity.
Qed.

End OperationsMore.

(** ** Connecting and disconnecting from the window *)

Section ConnectMore.

Lemma connect_done (st : App) :
  can_open (world st) (port (client st)) = true ->
  connect st = Done tt (after_connect st).
Proof.
  destruct st as [[p b t o] g [tr inc co]]. cbn [world client can_open port].
  intro Hcan.
  unfold connect, close, Serial_new, sleep, log, modify, bind, get, ret,
    after_connect, is_open.
  cbn [client ser].
  destruct o as [[sp sb stm [|]]|]; cbn; rewrite Hcan; cbn;
    now rewrite <- ?app_assoc.
Qed.

Lemma connect_failed (st : App) :
  can_open (world st) (port (client st)) = false ->
  connect st = Fail SerialException (after_failed_connect st).
Proof.
  destruct st as [[p b t o] g [tr inc co]]. cbn [world client can_open port].
  intro Hcan.
  unfold connect, close, Serial_new, sleep, log, modify, bind, get, ret, raise,
    after_failed_connect, is_open.
  cbn [client ser].
  destruct o as [[sp sb stm [|]]|]; cbn; rewrite Hcan; cbn;
    now rewrite ?app_nil_r.
Qed.

(** X12 (disconnecting): with an open connection the Connect button closes
    the port and nothing else happens on it; the button reads Connect
    again, the status says Disconnected, and rows, selection and editor
    stay, so that the file operations find no connection. *)
Theorem toggle_connect_disconnects (st : App) :
  is_open (client st) = true ->
  exists st' : App,
    toggle_connect st = Done tt st'
    /\ is_open (client st') = false
    /\ trace (world st') = (trace (world st) ++ [EvClose])%list
    /\ btn_connect (gui st') = "Connect"
    /\ status_lbl (gui st') = "Disconnected"
    /\ tree (gui st') = tree (gui st)
    /\ selection (gui st') = selection (gui st)
    /\ editor (gui st') = editor (gui st)
    /\ refresh_files st' = Done tt st'.
Proof.
  destruct st as [[p b t o] g [tr inc co]]. unfold is_open. cbn [client ser].
  intro Hopen.
  destruct o as [[sp sb stm [|]]|]; try discriminate Hopen.
  unfold toggle_connect, close, bind, get, log, modify, ret, _set_status,
    is_open.
  cbn. eexists. split; [reflexivity|]. cbn. repeat split.
Qed.

Lemma toggle_connect_disconnects_witness :
  exists st' : App,
    toggle_connect connected_app = Done tt st'
    /\ is_open (client st') = false
    /\ status_lbl (gui st') = "Disconnected"
    /\ selection (gui st') = Some "2".
Proof.
  destruct (toggle_connect_disconnects connected_app eq_refl)
    as (st' & Hrun & Hclosed & _ & _ & Hstatus & _ & Hsel & _).
  exists st'. repeat split; assumption.
Defined.

(** X13 (connecting): without connection the Connect button takes the
    port from the entry, stripped. An empty port changes nothing. A port
    that opens is opened, settled and cleared, the listing is read, and
    the button reads Disconnect. A port that does not open leaves the
    client without connection and the status Not connected; nothing is
    sent and no exception leaves the operation. *)
Theorem toggle_connect_connects (st : App) :
  is_open (client st) = false ->
  let p := Py.strip (port_var (gui st)) in
  (p = "" -> toggle_connect st = Done tt st)
  /\ (p <> "" -> can_open (world st) p = true ->
      exists st' : App,
        toggle_connect st = Done tt st'
        /\ is_open (client st') = true
        /\ port (client st') = p
        /\ status_lbl (gui st') = "Connected " ++ p
        /\ btn_connect (gui st') = "Disconnect"
        /\ tree (gui st') = listing_rows (reply st)
        /\ trace (world st')
           = (trace (world st)
                ++ [EvOpen p (baud (client st)) (timeout (client st));
                    EvSleep 150; EvResetInput;
                    EvResetInput; EvWrite (wire "LIST")]
                ++ poll_events (window st))%list)
  /\ (p <> "" -> can_open (world st) p = false ->
      exists st' : App,
        toggle_connect st = Done tt st'
        /\ is_open (client st') = false
        /\ port (client st') = p
        /\ status_lbl (gui st') = "Not connected"
        /\ tree (gui st') = tree (gui st)
        /\ trace (world st') = trace (world st)).
Proof.
  intros Hclosed p. subst p.
  unfold toggle_connect, try_except, _set_status, bind, get, modify.
  rewrite Hclosed.
  split; [|split].
  - intros ->. reflexivity.
  - intros Hp Hcan.
    destruct (Py.strip (port_var (gui st))) as [|c r] eqn:Eport; [contradiction|].
    cbn [Py.truthy Py.is_empty negb].
    rewrite connect_done by exact Hcan. cbv beta iota.
    rewrite refresh_files_open by reflexivity.
    eexists. split; [reflexivity|].
    unfold after_refresh, after_exchange, after_connect, reply, window.
    cbn [client gui world with_client with_gui with_world set_port set_ser
         port baud timeout ser trace incoming can_open
         set_tree set_status_labels set_btn_connect tree status_lbl btn_connect].
    change (is_open (set_port (String c r) (client st)))
      with (is_open (client st)).
    rewrite Hclosed. repeat split. now rewrite <- !app_assoc.
  - intros Hp Hcan.
    destruct (Py.strip (port_var (gui st))) as [|c r] eqn:Eport; [contradiction|].
    cbn [Py.truthy Py.is_empty negb].
    rewrite connect_failed by exact Hcan. cbv beta iota.
    eexists. split; [reflexivity|].
    unfold after_failed_connect.
    cbn [client gui world with_client with_gui with_world set_port set_ser
         port baud timeout ser trace incoming can_open
         set_tree set_status_labels set_btn_connect tree status_lbl btn_connect].
    change (is_open (set_port (String c r) (client st)))
      with (is_open (client st)).
    rewrite Hclosed. repeat split. now rewrite app_nil_r.
Qed.

Lemma toggle_connect_connects_witness :
  exists st' : App,
    toggle_connect disconnected_app = Done tt st'
    /\ is_open (client st') = true
    /\ status_lbl (gui st') = "Connected COM9"
    /\ btn_connect (gui st') = "Disconnect".
Proof.
  destruct (proj1 (proj2 (toggle_connect_connects disconnected_app eq_refl))
              ltac:(discriminate) eq_refl)
    as (st' & Hrun & Hopen & _ & Hstatus & Hbtn & _).
  exists st'. repeat split; assumption.
Defined.

(** X14 (starting the window): creating the window never raises. When the
    default port opens, the window starts connected with the listing read
    and the status Connected COM9, while the button still reads Connect;
    when it does not open, the window starts without connection, with no
    rows and the status Not connected, and nothing has happened on the
    port. *)
Theorem app_init_outcomes (w : World) :
  returns_normally (app_init w) = true
  /\ (can_open w PORT_DEFAULT = true ->
      let st := final_state (app_init w) in
      is_open (client st) = true
      /\ status_lbl (gui st) = "Connected COM9"
      /\ btn_connect (gui st) = "Connect"
      /\ tree (gui st) = listing_rows (concat (hd [] (incoming w)))
      /\ trace (world st)
         = (trace w
              ++ [EvOpen PORT_DEFAULT BAUD 100; EvSleep 150; EvResetInput;
                  EvResetInput; EvWrite (wire "LIST")]
              ++ poll_events (hd [] (incoming w)))%list)
  /\ (can_open w PORT_DEFAULT = false ->
      let st := final_state (app_init w) in
      is_open (client st) = false
      /\ status_lbl (gui st) = "Not connected"
      /\ tree (gui st) = []
      /\ trace (world st) = trace w).
Proof.
  unfold app_init, try_except, _set_status, bind, get, modify.
  destruct (can_open w PORT_DEFAULT) eqn:Hcan.
  - rewrite connect_done by exact Hcan. cbv beta iota.
    rewrite refresh_files_open by reflexivity.
    split; [reflexivity|]. split; [|discriminate].
    intros _. cbn [final_state].
    unfold after_refresh, after_exchange, after_connect, reply, window.
    cbn. repeat split. now rewrite <- !app_assoc.
  - rewrite connect_failed by exact Hcan. cbv beta iota.
    split; [reflexivity|]. split; [discriminate|].
    intros _. cbn. repeat split. now rewrite app_nil_r.
Qed.

Lemma app_init_outcomes_witness :
  let st := final_state (app_init open_world) in
  is_open (client st) = true
  /\ status_lbl (gui st) = "Connected COM9"
  /\ btn_connect (gui st) = "Connect".
Proof.
  destruct (proj1 (proj2 (app_init_outcomes open_world)) eq_refl)
    as (Hopen & Hstatus & Hbtn & _).
  repeat split; assumption.
Defined.

End ConnectMore.

(** ** Everything the window ever does on the port *)

Section Protocol.

Lemma slot_iids_index (item : string) :
  In item slot_iids ->
  exists idx : Z, Py.int item = Ok idx /\ slot_index idx.
Proof.
  unfold slot_index, FILE_COUNT.
  intros [<-|[<-|[<-|[]]]]; eexists; (split; [reflexivity | cbn; lia]).
Qed.

Lemma get_selected_index_slot (st : App) :
  gui_ok (gui st) = true ->
  exists o : option Z,
    _get_selected_index st = Done o st
    /\ forall idx, o = Some idx -> slot_index idx.
Proof.
  intro Hok. unfold _get_selected_index, bind, get.
  destruct (selection (gui st)) as [item|] eqn:Hsel.
  - destruct (slot_iids_index item (gui_ok_selection _ _ Hok Hsel))
      as (idx & Hidx & Hslot).
    rewrite Hidx. exists (Some idx). split; [reflexivity|].
    now intros ? [= <-].
  - exists None. split; [reflexivity | discriminate].
Qed.

Lemma segment_exchange_then
  (c : command) (polls : list (list Byte.byte)) (rest : list event) :
  sendable c -> segment rest ->
  segment (([EvResetInput; EvWrite (wire (command_line c))] ++ poll_events polls)
             ++ rest).
Proof. intros Hc Hrest. apply seg_app; [now apply seg_exchange | exact Hrest]. Qed.

Lemma segment_list (polls : list (list Byte.byte)) :
  segment ([EvResetInput; EvWrite (wire "LIST")] ++ poll_events polls).
Proof. exact (seg_exchange CList polls I). Qed.

Local Ltac no_events :=
  exists []; split; [now rewrite app_nil_r | apply seg_nil].

Lemma refresh_files_segment (st : App) :
  exists evs : list event,
    trace (world (final_state (refresh_files st))) = (trace (world st) ++ evs)%list
    /\ segment evs.
Proof.
  destruct (is_open (client st)) eqn:Hopen.
  - rewrite refresh_files_open by exact Hopen.
    eexists. split; [reflexivity | apply segment_list].
  - rewrite refresh_files_closed by exact Hopen. no_events.
Qed.

Lemma take_word (n : nat) (c : ascii) (r : string) :
  Py.take (S n) (String c r) <> "" /\ String.length (Py.take (S n) (String c r)) <= S n.
Proof.
  split; [discriminate|]. rewrite take_length. apply Nat.le_min_l.
Qed.

Lemma perform_segment (a : action) (st : App) :
  gui_ok (gui st) = true ->
  exists evs : list event,
    trace (world (final_state (perform a st))) = (trace (world st) ++ evs)%list
    /\ segment evs.
Proof.
  intro Hok.
  destruct (get_selected_index_slot st Hok) as (o & Ho & Hslot).
  destruct a as [| | |answer|yes| |item|text|text]; cbn [perform].
  - apply refresh_files_segment.
  - unfold read_selected, bind, get. rewrite Ho.
    destruct o as [idx|]; [|no_events].
    destruct (is_open (client st)) eqn:Hopen; [|no_events]. cbn [negb].
    rewrite send_line_open by exact Hopen.
    unfold try_except, tree_set_name, bind, get, modify, raise, ret.
    cbn [gui with_gui after_exchange with_world set_editor tree].
    destruct (find _ (tree (gui st))); cbn [final_state];
      (eexists; split;
       [reflexivity | exact (seg_exchange (CRead idx) _ (Hslot idx eq_refl))]).
  - unfold write_selected, bind, get. rewrite Ho.
    destruct o as [idx|]; [|no_events].
    destruct (is_open (client st)) eqn:Hopen; [|no_events]. cbn [negb].
    rewrite send_line_open by exact Hopen.
    unfold sleep, log, _set_status, modify.
    rewrite refresh_files_open by exact Hopen.
    exists (([EvResetInput;
              EvWrite (wire (command_line
                 (CWrite idx (Py.rstrip_char Py.LF (editor_get_all (gui st))))))]
               ++ poll_events (window st))
            ++ [EvSleep 20]
            ++ ([EvResetInput; EvWrite (wire "LIST")] ++ poll_events
                  (window (after_exchange
                     (write_command idx (editor_get_all (gui st))) st))))%list.
    split.
    + unfold after_refresh, after_exchange, window.
      cbn [final_state world with_world with_gui trace incoming].
      now rewrite <- !app_assoc.
    + apply segment_exchange_then.
      * split; [exact (Hslot idx eq_refl)|].
        intro u. unfold Py.rstrip_char, Py.nl.
        apply rstrip_by_no_trailing. reflexivity.
      * apply seg_app; [apply seg_sleep | apply segment_list].
  - unfold rename_selected, bind, get. rewrite Ho.
    destruct o as [idx|]; [|no_events].
    destruct (is_open (client st)) eqn:Hopen; [|no_events]. cbn [negb].
    destruct answer as [newname|]; [|no_events].
    destruct newname as [|c r]; [no_events|]. cbn [Py.truthy Py.is_empty negb].
    rewrite send_line_open by exact Hopen.
    unfold sleep, log, _set_status, modify.
    rewrite refresh_files_open by exact Hopen.
    exists (([EvResetInput;
              EvWrite (wire (command_line
                 (CWriteName idx (Py.take 9 (String c r)))))]
               ++ poll_events (window st))
            ++ [EvSleep 20]
            ++ ([EvResetInput; EvWrite (wire "LIST")] ++ poll_events
                  (window (after_exchange
                     ("WRITE_NAME " ++ Py.str_of_int idx ++ " "
                        ++ Py.take 9 (String c r)) st))))%list.
    split.
    + unfold after_refresh, after_exchange, window.
      cbn [final_state world with_world with_gui trace incoming].
      now rewrite <- !app_assoc.
    + apply segment_exchange_then.
      * split; [exact (Hslot idx eq_refl) | apply take_word].
      * apply seg_app; [apply seg_sleep | apply segment_list].
  - unfold delete_selected, bind, get. rewrite Ho.
    destruct o as [idx|]; [|no_events].
    destruct (is_open (client st)) eqn:Hopen; [|no_events]. cbn [negb].
    destruct yes; [|no_events]. cbn [negb].
    rewrite send_line_open by exact Hopen.
    unfold _set_status, modify.
    rewrite refresh_files_open by exact Hopen.
    exists (([EvResetInput; EvWrite (wire (command_line (CDelete idx)))]
               ++ poll_events (window st))
            ++ ([EvResetInput; EvWrite (wire "LIST")] ++ poll_events
                  (window (after_exchange ("DELETE " ++ Py.str_of_int idx) st))))%list.
    split.
    + unfold after_refresh, after_exchange, window.
      cbn [final_state world with_world with_gui trace incoming].
      now rewrite <- !app_assoc.
    + apply segment_exchange_then;
        [exact (Hslot idx eq_refl) | apply segment_list].
  - unfold toggle_connect, try_except, _set_status, bind, get, modify.
    destruct (is_open (client st)) eqn:Hopen.
    + unfold close, bind, get, log, modify, ret.
      destruct st as [[p b t sr] g [tr inc co]]. unfold is_open in Hopen.
      cbn [client ser] in Hopen |- *.
      destruct sr as [[sp sb stm [|]]|]; try discriminate Hopen.
      cbn. exists [EvClose]. split; [reflexivity | apply seg_close].
    + destruct (Py.truthy (Py.strip (port_var (gui st)))); [|no_events].
      cbn [negb].
      destruct (can_open (world st) (Py.strip (port_var (gui st)))) eqn:Hcan.
      * rewrite connect_done by exact Hcan. cbv beta iota.
        rewrite refresh_files_open by reflexivity.
        unfold after_refresh, after_exchange, after_connect, window.
        cbn [final_state client gui world with_client with_gui with_world
             set_port set_ser port baud timeout ser trace incoming can_open].
        change (is_open (set_port (Py.strip (port_var (gui st))) (client st)))
          with (is_open (client st)).
        rewrite Hopen. cbn [app].
        eexists. split; [rewrite <- app_assoc; reflexivity|].
        apply (seg_app [EvOpen _ _ _]); [apply seg_open|].
        apply (seg_app [EvSleep 150]); [apply seg_sleep|].
        apply (seg_app [EvResetInput]); [apply seg_reset|].
        apply segment_list.
      * rewrite connect_failed by exact Hcan. cbv beta iota.
        unfold after_failed_connect.
        cbn [final_state client gui world with_client with_gui with_world
             set_port set_ser port baud timeout ser trace incoming can_open].
        change (is_open (set_port (Py.strip (port_var (gui st))) (client st)))
          with (is_open (client st)).
        rewrite Hopen. no_events.
  - unfold select, modify. cbn [final_state].
    destruct (existsb _ (tree (gui st))); no_events.
  - unfold modify. cbn [final_state with_gui world]. no_events.
  - unfold modify. cbn [final_state with_gui world]. no_events.
Qed.

Lemma app_init_segment (w : World) :
  exists evs : list event,
    trace (world (final_state (app_init w))) = (trace w ++ evs)%list
    /\ segment evs.
Proof.
  unfold app_init, try_except, _set_status, bind, get, modify.
  destruct (can_open w PORT_DEFAULT) eqn:Hcan.
  - rewrite connect_done by exact Hcan. cbv beta iota.
    rewrite refresh_files_open by reflexivity.
    unfold after_refresh, after_exchange, after_connect, window.
    cbn. eexists. split; [rewrite <- app_assoc; reflexivity|].
    apply (seg_app [EvOpen _ _ _]); [apply seg_open|].
    apply (seg_app [EvSleep 150]); [apply seg_sleep|].
    apply (seg_app [EvResetInput]); [apply seg_reset|].
    apply segment_list.
  - rewrite connect_failed by exact Hcan. cbv beta iota.
    cbn. no_events.
Qed.

Lemma run_segment (acts : list action) :
  forall st : App,
    gui_ok (gui st) = true ->
    exists evs : list event,
      trace (world (run acts st)) = (trace (world st) ++ evs)%list
      /\ segment evs.
Proof.
  induction acts as [|a acts IH]; intros st Hok; cbn [run].
  - exists []. split; [now rewrite app_nil_r | apply seg_nil].
  - destruct (perform_segment a st Hok) as (e1 & H1 & S1).
    destruct (IH _ (perform_gui_ok a st Hok)) as (e2 & H2 & S2).
    exists (e1 ++ e2)%list. split; [|now apply seg_app].
    now rewrite H2, H1, app_assoc.
Qed.

Lemma window_segment (w : World) (acts : list action) :
  exists evs : list event,
    trace (world (run acts (final_state (app_init w)))) = (trace w ++ evs)%list
    /\ segment evs.
Proof.
  destruct (app_init_segment w) as (e1 & H1 & S1).
  destruct (run_segment acts _ (app_init_gui_ok w)) as (e2 & H2 & S2).
  exists (e1 ++ e2)%list. split; [|now apply seg_app].
  now rewrite H2, H1, app_assoc.
Qed.

Lemma segment_written (evs : list event) :
  segment evs ->
  Forall (fun data => exists c, sendable c /\ data = wire (command_line c))
         (written evs).
Proof.
  induction 1 as [|a b _ IHa _ IHb|c polls Hc| | | |].
  - constructor.
  - rewrite written_app. apply Forall_app. now split.
  - cbn [app written]. rewrite written_poll_events.
    constructor; [|constructor]. now exists c.
  - constructor.
  - constructor.
  - constructor.
  - constructor.
Qed.

Lemma writes_after_reset_polls (polls : list (list Byte.byte)) (prev : bool) :
  writes_after_reset prev (poll_events polls) = true.
Proof.
  revert prev. induction polls as [|[|x avail] rest IH]; intro prev; cbn; auto.
Qed.

Lemma writes_after_reset_app (a b : list event) :
  forall prev : bool,
    writes_after_reset prev a = true ->
    (forall q, writes_after_reset q b = true) ->
    writes_after_reset prev (a ++ b) = true.
Proof.
  induction a as [|e a IH]; intros prev Ha Hb; [apply Hb|].
  destruct e; cbn [app writes_after_reset] in *; try (now apply IH).
  apply andb_true_iff in Ha as [-> Ha]. now apply IH.
Qed.

Lemma segment_writes_after_reset (evs : list event) :
  segment evs -> forall prev, writes_after_reset prev evs = true.
Proof.
  induction 1 as [|a b _ IHa _ IHb|c polls Hc| | | |]; intro prev;
    try reflexivity.
  - now apply writes_after_reset_app.
  - cbn. apply writes_after_reset_polls.
Qed.

(** X16 (only commands go out): whatever the user does with the window
    after it was created, and whatever the device answers, every write on
    the port is one command of the protocol followed by a line feed: LIST,
    or READ, WRITE, WRITE_NAME or DELETE on a slot from 1 to 3, where a
    text written is escaped and was cut of its trailing line feeds, and a
    name has one to nine characters. *)
Theorem window_sends_only_commands (w : World) (acts : list action) :
  exists evs : list event,
    trace (world (run acts (final_state (app_init w)))) = (trace w ++ evs)%list
    /\ Forall (fun data => exists c, sendable c /\ data = wire (command_line c))
              (written evs).
Proof.
  destruct (window_segment w acts) as (evs & Htrace & Hseg).
  exists evs. split; [exact Htrace | now apply segment_written].
Qed.

(** X17 (the input is cleared before every write): whatever the user does
    with the window after it was created, every write on the port comes
    right after a clearing of the input, so that nothing left over from an
    earlier exchange is taken for the reply. *)
Theorem window_clears_before_writing (w : World) (acts : list action) :
  exists evs : list event,
    trace (world (run acts (final_state (app_init w)))) = (trace w ++ evs)%list
    /\ forall prev : bool, writes_after_reset prev evs = true.
Proof.
  destruct (window_segment w acts) as (evs & Htrace & Hseg).
  exists evs. split; [exact Htrace | now apply segment_writes_after_reset].
Qed.

End Protocol.

(** ** Sequences of actions *)

Section Sequences.

Lemma perform_keeps_client (a : action) (st : App) :
  is_toggle a = false -> client (final_state (perform a st)) = client st.
Proof.
  destruct (file_ops_keep_client st) as (Hl & Hr & Hw & Hn & Hd).
  destruct a; cbn [perform is_toggle]; intro H; try discriminate H; auto.
  - unfold select, modify. cbn [final_state].
    destruct (existsb _ (tree (gui st))); reflexivity.
Qed.

(** X15 (only the Connect button touches the connection): over any
    sequence of actions without the Connect button, file operations with
    any answers to their dialogs, selections and edits, the client keeps
    its port and its connection, open or not. *)
Theorem only_toggle_changes_client (acts : list action) :
  forall st : App,
    forallb (fun a => negb (is_toggle a)) acts = true ->
    client (run acts st) = client st
    /\ is_open (client (run acts st)) = is_open (client st).
Proof.
  induction acts as [|a acts IH]; intros st Hacts; cbn [run]; [split; reflexivity|].
  cbn [forallb] in Hacts. apply andb_true_iff in Hacts as [Ha Hacts].
  apply negb_true_iff in Ha.
  destruct (IH (final_state (perform a st)) Hacts) as [Hc _].
  rewrite (perform_keeps_client a st Ha) in Hc.
  split; [exact Hc | now rewrite Hc].
Qed.

Lemma only_toggle_changes_client_witness :
  client (run [WriteSel; Select "1"; ReadSel; DeleteSel true] connected_app)
  = client connected_app.
Proof.
  exact (proj1 (only_toggle_changes_client
                  [WriteSel; Select "1"; ReadSel; DeleteSel true]
                  connected_app eq_refl)).
Defined.

Lemma perform_closed (a : action) (st : App) :
  is_toggle a = false ->
  is_open (client st) = false ->
  world (final_state (perform a st)) = world st
  /\ client (final_state (perform a st)) = client st.
Proof.
  intros Ha Hclosed. split; [|now apply perform_keeps_client].
  destruct a; cbn [perform is_toggle] in *; try discriminate Ha.
  - now rewrite refresh_files_closed.
  - unfold read_selected, bind, get.
    destruct (get_selected_index_state st) as [[o ->]|[e ->]]; [|reflexivity].
    destruct o; [now rewrite Hclosed | reflexivity].
  - unfold write_selected, bind, get.
    destruct (get_selected_index_state st) as [[o ->]|[e ->]]; [|reflexivity].
    destruct o; [now rewrite Hclosed | reflexivity].
  - unfold rename_selected, bind, get.
    destruct (get_selected_index_state st) as [[o ->]|[e ->]]; [|reflexivity].
    destruct o; [now rewrite Hclosed | reflexivity].
  - unfold delete_selected, bind, get.
    destruct (get_selected_index_state st) as [[o ->]|[e ->]]; [|reflexivity].
    destruct o; [now rewrite Hclosed | reflexivity].
  - unfold select, modify. cbn [final_state].
    destruct (existsb _ (tree (gui st))); reflexivity.
  - reflexivity.
  - reflexivity.
Qed.

(** X22 (nothing happens on the port while disconnected): without
    connection, no sequence of file operations, selections and edits
    touches the port or uses up a reply of the device: the world stays as
    it is until the Connect button is used. *)
Theorem disconnected_window_is_silent (acts : list action) :
  forall st : App,
    forallb (fun a => negb (is_toggle a)) acts = true ->
    is_open (client st) = false ->
    world (run acts st) = world st.
Proof.
  induction acts as [|a acts IH]; intros st Hacts Hclosed; cbn [run]; [reflexivity|].
  cbn [forallb] in Hacts. apply andb_true_iff in Hacts as [Ha Hacts].
  apply negb_true_iff in Ha.
  destruct (perform_closed a st Ha Hclosed) as [Hw Hc].
  rewrite IH; [exact Hw | exact Hacts | now rewrite Hc].
Qed.

Lemma disconnected_window_is_silent_witness :
  world (run [Select "3"; Edit "new text"; WriteSel; RenameSel (Some "a");
              DeleteSel true; Refresh] disconnected_app)
  = world disconnected_app.
Proof.
  exact (disconnected_window_is_silent
           [Select "3"; Edit "new text"; WriteSel; RenameSel (Some "a");
            DeleteSel true; Refresh] disconnected_app eq_refl eq_refl).
Defined.

(** X21 (what was read is written back): when the reply to READ is the
    escaped form of a text of printable characters, line feeds and carriage
    returns, followed by the carriage return and line feed of a line
    ending, the editor gets the text and one line feed; writing the editor
    back then sends the same payload as writing the text itself. *)
Theorem read_then_write_is_stable (s : string) (idx : Z) :
  all_chars survives s = true ->
  let raw := (Py.encode_utf8 (escape_for_arduino s) ++ [Byte.x0d; Byte.x0a])%list in
  let text := unescape_from_arduino (bytes_to_text raw) in
  text = s ++ Py.nl
  /\ write_command idx (text ++ Py.nl) = write_command idx s.
Proof.
  intros Hs raw text.
  assert (Htext : text = s ++ Py.nl).
  { subst text raw. rewrite bytes_to_text_app, echo_escape.
    rewrite (filter_chars_all _ _ Hs).
    change (bytes_to_text [Byte.x0d; Byte.x0a]) with Py.nl.
    rewrite unescape_is_scan, scan_escape_then. reflexivity. }
  split; [exact Htext|].
  rewrite Htext. unfold write_command, Py.rstrip_char, Py.nl.
  now rewrite !rstrip_by_snoc.
Qed.

Lemma read_then_write_is_stable_witness :
  write_command 1%Z
    (unescape_from_arduino
       (bytes_to_text
          (Py.encode_utf8 (escape_for_arduino ("a\b" ++ Py.nl ++ "c"))
             ++ [Byte.x0d; Byte.x0a])%list)
       ++ Py.nl)
  = write_command 1%Z ("a\b" ++ Py.nl ++ "c").
Proof.
  exact (proj2 (read_then_write_is_stable ("a\b" ++ Py.nl ++ "c") 1%Z eq_refl)).
Defined.

End Sequences.
